(** * IAM policy builders and the MSK cluster validator, embedded in Rocq

    Shallow embedding of
    - [PolicyDocument] and [PolicyStatement] (aws-iam, policy-document.ts),
    - the [Cluster] construct of aws-msk (cluster.ts, two revisions),
    followed by the properties of their serialisation and validation. *)

From Stdlib Require Import String Ascii List Bool Arith ZArith Lia.
From Stdlib Require Import DecimalString.
Import ListNotations.
Local Open Scope string_scope.
Local Open Scope list_scope.

(* ================================================================= *)
(** ** JavaScript values *)

(** The values the builders store and emit.  Objects keep their keys in
    insertion order, as [Object.keys] reports them for keys that are not
    array indices (principal tags, condition operators, field names).
    [null] is left out: no builder call stores it where [_norm] would
    inspect it. *)
#[warnings="-register-all"]
Inductive JsValue : Type :=
| JUndefined
| JBool (b : bool)
| JString (s : string)
| JArray (vs : list JsValue)
| JObject (kvs : list (string * JsValue)).

(** ToBoolean: what [if (v)] and [v || d] test. *)
Definition truthy (v : JsValue) : bool :=
  match v with
  | JUndefined => false
  | JBool b => b
  | JString s => negb (s =? "")
  | JArray _ => true
  | JObject _ => true
  end.

(** [a || b] *)
Definition js_or (a b : JsValue) : JsValue := if truthy a then a else b.

(** [v === '<s>'] against a string literal. *)
Definition strict_eq_string (v : JsValue) (s : string) : bool :=
  match v with
  | JString t => t =? s
  | _ => false
  end.

Module Obj.
Section Obj.
Context {V : Type}.

  (** [Object.keys(o)] *)
Definition keys (o : list (string * V)) : list string := map fst o.

  (** [o[k]], [None] standing for a missing own property. *)
Fixpoint get (o : list (string * V)) (k : string) : option V :=
    match o with
    | [] => None
    | (k', v) :: o' => if k' =? k then Some v else get o' k
    end.

  (** [o[k] = v]: an existing key keeps its place, a new one goes last. *)
Fixpoint set (o : list (string * V)) (k : string) (v : V) : list (string * V) :=
    match o with
    | [] => [(k, v)]
    | (k', v') :: o' => if k' =? k then (k', v) :: o' else (k', v') :: set o' k v
    end.
End Obj.
End Obj.

(** Property read on a value: [v.k], [undefined] when [v] has no such
    own property (in particular when [v] is a string or [undefined]
    reached through an emitted tree). *)
Definition prop (v : JsValue) (k : string) : JsValue :=
  match v with
  | JObject kvs => match Obj.get kvs k with Some x => x | None => JUndefined end
  | _ => JUndefined
  end.

(** What a call may end in: a value, or a thrown [Error]. *)
Inductive result (A : Type) : Type :=
| Ok (a : A)
| Throw (message : string).
Arguments Ok {A} a.
Arguments Throw {A} message.

(* ================================================================= *)
(** ** PolicyStatement *)

Inductive PolicyStatementEffect : Type := Allow | Deny.

(** The string value of the enum member. *)
Definition PolicyStatementEffect_value (e : PolicyStatementEffect) : string :=
  match e with
  | Allow => "Allow"
  | Deny => "Deny"
  end.

Record PolicyStatement : Type := {
  action : list JsValue;
  principal : list (string * list JsValue);
  resource : list JsValue;
  condition : list (string * JsValue);
  effect : option PolicyStatementEffect;
  sid : JsValue
}.

(** [new PolicyStatement(effect = PolicyStatementEffect.Allow)]: the
    default applies when the argument is [undefined]. *)
Definition PolicyStatement_new (eff : option PolicyStatementEffect) : PolicyStatement :=
  {| action := [];
     principal := [];
     resource := [];
     condition := [];
     effect := Some (match eff with Some e => e | None => Allow end);
     sid := JUndefined |}.

Definition addAction (a : string) (s : PolicyStatement) : PolicyStatement :=
  {| action := action s ++ [JString a];
     principal := principal s;
     resource := resource s;
     condition := condition s;
     effect := effect s;
     sid := sid s |}.

Definition addActions (actions : list string) (s : PolicyStatement) : PolicyStatement :=
  fold_left (fun st a => addAction a st) actions s.

Definition addResource (arn : string) (s : PolicyStatement) : PolicyStatement :=
  {| action := action s;
     principal := principal s;
     resource := resource s ++ [JString arn];
     condition := condition s;
     effect := effect s;
     sid := sid s |}.

Definition addAllResources (s : PolicyStatement) : PolicyStatement :=
  addResource "*" s.

Definition addResources (arns : list string) (s : PolicyStatement) : PolicyStatement :=
  fold_left (fun st r => addResource r st) arns s.

Definition describe (sid' : string) (s : PolicyStatement) : PolicyStatement :=
  {| action := action s;
     principal := principal s;
     resource := resource s;
     condition := condition s;
     effect := effect s;
     sid := JString sid' |}.

Definition allow (s : PolicyStatement) : PolicyStatement :=
  {| action := action s;
     principal := principal s;
     resource := resource s;
     condition := condition s;
     effect := Some Allow;
     sid := sid s |}.

Definition deny (s : PolicyStatement) : PolicyStatement :=
  {| action := action s;
     principal := principal s;
     resource := resource s;
     condition := condition s;
     effect := Some Deny;
     sid := sid s |}.

(** [this.condition[key] = value] *)
Definition addCondition (key : string) (value : JsValue) (s : PolicyStatement)
  : PolicyStatement :=
  {| action := action s;
     principal := principal s;
     resource := resource s;
     condition := Obj.set (condition s) key value;
     effect := effect s;
     sid := sid s |}.

(** [Object.keys(conditions).map(key => this.addCondition(key, conditions[key]))] *)
Definition addConditions (conditions : list (string * JsValue)) (s : PolicyStatement)
  : PolicyStatement :=
  fold_left
    (fun st key =>
       addCondition key
         (match Obj.get conditions key with Some v => v | None => JUndefined end) st)
    (Obj.keys conditions) s.

Definition setCondition (key : string) (value : JsValue) (s : PolicyStatement)
  : PolicyStatement :=
  addCondition key value s.

Definition hasPrincipal (s : PolicyStatement) : bool :=
  (0 <? length (Obj.keys (principal s)))%nat.

Definition hasResource (s : PolicyStatement) : bool :=
  (0 <? length (resource s))%nat.

(** What [principal.policyFragment] hands to [addPrincipal]. *)
Record PrincipalPolicyFragment : Type := {
  principalJson : list (string * list JsValue);
  conditions : list (string * JsValue)
}.

(** Modelled from the spec: [mergePrincipal] of ./util, which is not among
    the sources.  "The fragment's principal values are appended into the
    existing list for that tag (creating the tag entry if absent)". *)
Definition mergePrincipal (target source : list (string * list JsValue))
  : list (string * list JsValue) :=
  fold_left
    (fun tgt key =>
       let existing := match Obj.get tgt key with Some vs => vs | None => [] end in
       let value := match Obj.get source key with Some vs => vs | None => [] end in
       Obj.set tgt key (existing ++ value))
    (Obj.keys source) target.

Definition addPrincipal (fragment : PrincipalPolicyFragment) (s : PolicyStatement)
  : PolicyStatement :=
  let s1 :=
    {| action := action s;
       principal := mergePrincipal (principal s) (principalJson fragment);
       resource := resource s;
       condition := condition s;
       effect := effect s;
       sid := sid s |} in
  addConditions (conditions fragment) s1.

(** *** Serialisation *)

Definition _norm (values : JsValue) : JsValue :=
  match values with
  | JUndefined => JUndefined
  | JArray vs =>
      match vs with
      | [] => JUndefined
      | [v] => v
      | _ => values
      end
  | JObject kvs =>
      match Obj.keys kvs with
      | [] => JUndefined
      | _ => values
      end
  | _ => values
  end.

(** The loop of [_normPrincipal] that fills [result]. *)
Definition _normPrincipal_result (principal : list (string * list JsValue))
  : list (string * JsValue) :=
  fold_left
    (fun result key =>
       let normVal :=
         _norm (match Obj.get principal key with
                | Some vs => JArray vs
                | None => JUndefined
                end) in
       if truthy normVal then Obj.set result key normVal else result)
    (Obj.keys principal) [].

Definition _normPrincipal (principal : list (string * list JsValue)) : JsValue :=
  let keys := Obj.keys principal in
  if (length keys =? 0)%nat then JUndefined
  else
    let result := _normPrincipal_result principal in
    if (length (Obj.keys result) =? 1)%nat
       && strict_eq_string (match Obj.get result "AWS" with
                            | Some v => v
                            | None => JUndefined
                            end) "*"
    then JString "*"
    else JObject result.

Definition toJson (s : PolicyStatement) : JsValue :=
  JObject
    [ ("Action", _norm (JArray (action s)));
      ("Condition", _norm (JObject (condition s)));
      ("Effect", _norm (match effect s with
                        | Some e => JString (PolicyStatementEffect_value e)
                        | None => JUndefined
                        end));
      ("Principal", _normPrincipal (principal s));
      ("Resource", _norm (JArray (resource s)));
      ("Sid", _norm (sid s)) ].

(** [PolicyStatement.resolve] *)
Definition PolicyStatement_resolve (s : PolicyStatement) : JsValue := toJson s.

(** [limitToAccount]: the token it stores resolves to the one-key object. *)
Definition limitToAccount (accountId : string) (s : PolicyStatement) : PolicyStatement :=
  addCondition "StringEquals" (JObject [("sts:ExternalId", JString accountId)]) s.

(** *** Sequences of builder calls *)

Inductive BuilderCall : Type :=
| CallAddAction (a : string)
| CallAddActions (actions : list string)
| CallAddPrincipal (fragment : PrincipalPolicyFragment)
| CallAddResource (arn : string)
| CallAddAllResources
| CallAddResources (arns : list string)
| CallDescribe (sid' : string)
| CallAllow
| CallDeny
| CallAddCondition (key : string) (value : JsValue)
| CallAddConditions (conditions : list (string * JsValue))
| CallSetCondition (key : string) (value : JsValue)
| CallLimitToAccount (accountId : string).

Definition call (c : BuilderCall) (s : PolicyStatement) : PolicyStatement :=
  match c with
  | CallAddAction a => addAction a s
  | CallAddActions l => addActions l s
  | CallAddPrincipal f => addPrincipal f s
  | CallAddResource r => addResource r s
  | CallAddAllResources => addAllResources s
  | CallAddResources l => addResources l s
  | CallDescribe d => describe d s
  | CallAllow => allow s
  | CallDeny => deny s
  | CallAddCondition k v => addCondition k v s
  | CallAddConditions c => addConditions c s
  | CallSetCondition k v => setCondition k v s
  | CallLimitToAccount a => limitToAccount a s
  end.

(** The statement after the calls were made on it, first call first. *)
Definition build (calls : list BuilderCall) (s : PolicyStatement) : PolicyStatement :=
  fold_left (fun st c => call c st) calls s.

(** The actions, and the resources, the calls add, in call order. *)
Definition actions_added (calls : list BuilderCall) : list string :=
  flat_map (fun c => match c with
                     | CallAddAction a => [a]
                     | CallAddActions l => l
                     | _ => []
                     end) calls.

Definition resources_added (calls : list BuilderCall) : list string :=
  flat_map (fun c => match c with
                     | CallAddResource r => [r]
                     | CallAddAllResources => ["*"]
                     | CallAddResources l => l
                     | _ => []
                     end) calls.

(** The sequence an emitted field stands for: absent for none, a bare
    scalar for one element, the array otherwise. *)
Definition emitted (v : JsValue) : list JsValue :=
  match v with
  | JUndefined => []
  | JArray vs => vs
  | _ => [v]
  end.

(* ================================================================= *)
(** ** PolicyDocument *)

Record PolicyDocument : Type := {
  baseDocument : option (list (string * JsValue));
  statements : list PolicyStatement
}.

Definition PolicyDocument_new (base : option (list (string * JsValue))) : PolicyDocument :=
  {| baseDocument := base; statements := [] |}.

Definition isEmpty (d : PolicyDocument) : bool := (length (statements d) =? 0)%nat.

Definition statementCount (d : PolicyDocument) : nat := length (statements d).

Definition addStatement (st : PolicyStatement) (d : PolicyDocument) : PolicyDocument :=
  {| baseDocument := baseDocument d; statements := statements d ++ [st] |}.

Section Resolve.

(** [toString] of a statement, which is a token: the string marker the
    core library gives it. *)
Variable Token_toString : PolicyStatement -> string.

(** [PolicyDocument.resolve].  The statements appended by [concat] are
    tokens, shown here as what they resolve to.  On an array [concat]
    appends them; on a string it appends the string form of the list, its
    elements joined by commas; a base [Statement] of another truthy kind
    has no [concat] and the call fails. *)
Definition PolicyDocument_resolve (d : PolicyDocument) : result JsValue :=
  if isEmpty d then Ok JUndefined
  else
    let doc := match baseDocument d with Some o => o | None => [] end in
    let doc := Obj.set doc "Statement"
                 (js_or (prop (JObject doc) "Statement") (JArray [])) in
    let doc := Obj.set doc "Version"
                 (js_or (prop (JObject doc) "Version") (JString "2012-10-17")) in
    match prop (JObject doc) "Statement" with
    | JArray stmts =>
        Ok (JObject (Obj.set doc "Statement"
                       (JArray (stmts ++ map PolicyStatement_resolve (statements d)))))
    | JString text =>
        Ok (JObject (Obj.set doc "Statement"
                       (JString (text ++ String.concat "," (map Token_toString (statements d))))))
    | _ => Throw "TypeError: doc.Statement.concat is not a function"
    end.

End Resolve.

(* ================================================================= *)
(** ** The MSK Cluster construct *)

Module Msk.

(** *** Strings *)

(** [s.split(d)] for a one-character separator. *)
Fixpoint split (d : ascii) (s : string) : list string :=
  match s with
  | EmptyString => [""]
  | String c rest =>
      let parts := split d rest in
      if Ascii.eqb c d then "" :: parts
      else match parts with
           | p :: ps => String c p :: ps
           | [] => [String c ""]
           end
  end.

(** The character class [[a-zA-Z0-9]]. *)
Definition isAlphaNumeric (c : ascii) : bool :=
  let n := nat_of_ascii c in
  ((48 <=? n) && (n <=? 57) || (65 <=? n) && (n <=? 90) || (97 <=? n) && (n <=? 122))%nat.

(** [/^[a-zA-Z0-9]+$/.test(s)] *)
Definition test_alphanumeric (s : string) : bool :=
  negb (s =? "") && forallb isAlphaNumeric (list_ascii_of_string s).

(** A number inside a template literal. *)
Definition nat_to_string (n : nat) : string :=
  NilEmpty.string_of_uint (Nat.to_uint n).

(** *** Optional chaining *)

Definition opt_chain {A B : Type} (o : option A) (f : A -> option B) : option B :=
  match o with
  | Some a => f a
  | None => None
  end.
Notation "o ?. f" := (opt_chain o f) (at level 50, left associativity).

(** Truthiness of an optional array (an array is truthy, empty or not) and
    of an optional boolean. *)
Definition truthy_array {A : Type} (o : option (list A)) : bool :=
  match o with Some _ => true | None => false end.

Definition truthy_bool (o : option bool) : bool :=
  match o with Some b => b | None => false end.

(** *** Properties.  The interfaces are declared in a sibling module that
    is not among the sources; their shape is read off the accesses the
    constructor makes.  Part_000 reads the two authentication blocks under
    the names [tlsProps] and [saslProps]. *)

Inductive ClientBrokerEncryption : Type := TLS | TLS_PLAINTEXT | PLAINTEXT.

Definition ClientBrokerEncryption_eqb (a b : ClientBrokerEncryption) : bool :=
  match a, b with
  | TLS, TLS | TLS_PLAINTEXT, TLS_PLAINTEXT | PLAINTEXT, PLAINTEXT => true
  | _, _ => false
  end.

Record TlsAuthProps : Type := {
  certificateAuthorityArns : option (list string)
}.

Record SaslAuthProps : Type := {
  scram : option bool;
  key : option string
}.

Record ClientAuthentication : Type := {
  tls : option TlsAuthProps;
  sasl : option SaslAuthProps
}.

Record EncryptionInTransitConfig : Type := {
  clientBroker : option ClientBrokerEncryption;
  enableInCluster : option bool
}.

(** [volumeSize] is a whole number of GiB. *)
Record EbsStorageInfo : Type := {
  volumeSize : option Z;
  kmsKey : option string
}.

Record StorageInfo : Type := {
  ebsStorageInfo : option EbsStorageInfo
}.

Record SelectedSubnets : Type := {
  subnetIds : list string
}.

Definition subnets (sel : SelectedSubnets) : list string := subnetIds sel.

Record IVpc : Type := {
  selectSubnets : option string -> SelectedSubnets
}.

Inductive ISecurityGroup : Type :=
| SecurityGroup_new (id description : string)
| SecurityGroup_given (groupId : string).

Definition securityGroupId (g : ISecurityGroup) : string :=
  match g with
  | SecurityGroup_new id _ => id ++ ".GroupId"
  | SecurityGroup_given groupId => groupId
  end.

Record BrokerNodeGroupProps : Type := {
  vpc : IVpc;
  vpcSubnets : option string;
  securityGroups : option (list ISecurityGroup);
  storageInfo : option StorageInfo;
  brokerAzDistribution : option string
}.

Record ClusterProps : Type := {
  clusterName : string;
  brokerNodeGroupProps : BrokerNodeGroupProps;
  clientAuthentication : option ClientAuthentication;
  encryptionInTransit : option EncryptionInTransitConfig;
  numberOfBrokerNodes : option Z
}.

(** *** Template values *)

Inductive CfnValue : Type :=
| Lit (s : string)
| Ref (logicalId : string)
| FnSelectSplit (index : nat) (delimiter : string) (source : CfnValue).

(** The part of the [CfnCluster] resource that the validated properties
    and the connections feed. *)
Record CfnCluster : Type := {
  cfn_clusterName : string;
  cfn_numberOfBrokerNodes : Z;
  cfn_brokerAzDistribution : string;
  cfn_clientSubnets : list string;
  cfn_securityGroups : list string;
  cfn_volumeSize : Z;
  cfn_clientBroker : ClientBrokerEncryption;
  cfn_inCluster : bool;
  cfn_clientAuthentication : option (option bool * option (list string))
}.

(** *** ClusterBase *)

Record Connections : Type := {
  connections_securityGroups : list ISecurityGroup
}.

Record ClusterBase : Type := {
  this_clusterArn : option CfnValue;
  this_clusterName : option CfnValue;
  _connections : option Connections
}.

(** [get connections()] *)
Definition connections (this : ClusterBase) : result Connections :=
  match _connections this with
  | None => Throw "An imported Cluster cannot manage its security groups"
  | Some c => Ok c
  end.

(** [Cluster.fromClusterArn]: the [Import] class sets the two names and
    nothing else. *)
Definition fromClusterArn (clusterArn : string) : ClusterBase :=
  {| this_clusterArn := Some (Lit clusterArn);
     this_clusterName := option_map Lit (nth_error (split "/" clusterArn) 1);
     _connections := None |}.

(** A constructed cluster: the base, the key kept by part_000, and the
    resource child. *)
Record Cluster : Type := {
  base : ClusterBase;
  saslScramAuthenticationKey : option string;
  resource : CfnCluster
}.

(** *** Construction with diagnostics

    The construct's error annotations are threaded as state; a thrown
    [Error] ends the computation. *)

Definition M (A : Type) : Type := list string -> result (A * list string).

Definition ret {A : Type} (a : A) : M A := fun errors => Ok (a, errors).

Definition bind {A B : Type} (m : M A) (f : A -> M B) : M B :=
  fun errors =>
    match m errors with
    | Ok (a, errors') => f a errors'
    | Throw e => Throw e
    end.

Notation "x <- m ;; k" := (bind m (fun x => k))
  (at level 61, m at next level, right associativity).
Notation "m ;; k" := (bind m (fun _ => k))
  (at level 61, right associativity).

(** [core.Annotations.of(this).addError(message)] *)
Definition addError (message : string) : M unit :=
  fun errors => Ok (tt, errors ++ [message]).

Definition lift {A : Type} (r : result A) : M A :=
  fun errors =>
    match r with
    | Ok a => Ok (a, errors)
    | Throw e => Throw e
    end.

(** [if (c) { m }] *)
Definition when (c : bool) (m : M unit) : M unit := if c then m else ret tt.

(** The messages. *)
Definition subnetsMessage (n : nat) : string :=
  "Cluster requires at least 2 subnets, got " ++ nat_to_string n.

Definition clusterNameMessage (name : string) : string :=
  "The cluster name must only contain alphanumeric characters and have a maximum length of 64 characters."
  ++ "got: '" ++ name ++ ". length: " ++ nat_to_string (String.length name) ++ "'".

Definition onlyOneAuthMessage : string :=
  "Only one of SASL/SCRAM or TLS client authentication can be set.".

Definition authNeedsTlsMessage : string :=
  "To enable client authentication, you must enabled TLS-encrypted traffic between clients and brokers.".

Definition scramNeedsTlsOnlyMessage : string :=
  "To enable SASL/SCRAM authentication, you must only allow TLS-encrypted traffic between clients and brokers.".

Definition volumeSizeMessage : string :=
  "EBS volume size should be in the range 1-16384".

Section Constructor.

  (** [core.Token.isUnresolved], of the core library. *)
Variable isUnresolved : string -> bool.

Definition tlsCertificateAuthorityArns (props : ClusterProps) : option (list string) :=
    clientAuthentication props ?. tls ?. certificateAuthorityArns.

Definition saslScram (props : ClusterProps) : option bool :=
    clientAuthentication props ?. sasl ?. scram.

Definition saslKey (props : ClusterProps) : option string :=
    clientAuthentication props ?. sasl ?. key.

  (** [props.encryptionInTransit?.clientBroker === mode] *)
Definition clientBrokerIs (props : ClusterProps) (mode : ClientBrokerEncryption) : bool :=
    match encryptionInTransit props ?. clientBroker with
    | Some m => ClientBrokerEncryption_eqb m mode
    | None => false
    end.

Definition propsVolumeSize (props : ClusterProps) : option Z :=
    storageInfo (brokerNodeGroupProps props) ?. ebsStorageInfo ?. volumeSize.

  (** [this._connections = new ec2.Connections({...})] *)
Definition newConnections (props : ClusterProps) : Connections :=
    {| connections_securityGroups :=
         match securityGroups (brokerNodeGroupProps props) with
         | Some groups => groups
         | None => [SecurityGroup_new "SecurityGroup" "MSK security group"]
         end |}.

  (** The checks both revisions share. *)
Definition checkSubnets (props : ClusterProps) : M unit :=
    let subnetSelection :=
      selectSubnets (vpc (brokerNodeGroupProps props))
                    (vpcSubnets (brokerNodeGroupProps props)) in
    when (length (subnets subnetSelection) <? 2)%nat
         (addError (subnetsMessage (length (subnets subnetSelection)))).

Definition checkClusterName (props : ClusterProps) : M unit :=
    when (negb (isUnresolved (clusterName props))
          && negb (test_alphanumeric (clusterName props))
          && (64 <? String.length (clusterName props))%nat)
         (addError (clusterNameMessage (clusterName props))).

Definition checkOnlyOneAuth (props : ClusterProps) : M unit :=
    when (truthy_array (tlsCertificateAuthorityArns props)
          && truthy_bool (saslScram props))
         (addError onlyOneAuthMessage).

Definition checkAuthEncryption (props : ClusterProps) : M unit :=
    if clientBrokerIs props PLAINTEXT
       && (truthy_array (tlsCertificateAuthorityArns props)
           || truthy_bool (saslScram props))
    then addError authNeedsTlsMessage
    else if clientBrokerIs props TLS_PLAINTEXT && truthy_bool (saslScram props)
         then addError scramNeedsTlsOnlyMessage
         else ret tt.

Definition checkVolumeSize (props : ClusterProps) : M unit :=
    let volumeSize := propsVolumeSize props in
    when (match volumeSize with
          | Some v => (v <? 1)%Z || (v >? 16384)%Z
          | None => false
          end)
         (addError volumeSizeMessage).

  (** The [SASLKey] child, made when SCRAM is on and no key was given. *)
Definition newSaslKey (props : ClusterProps) : option string :=
    if truthy_bool (saslScram props)
       && match saslKey props with None => true | Some _ => false end
    then Some "SASLKey" else None.

Definition newResource (props : ClusterProps) (conns : Connections) : CfnCluster :=
    let brokerNodeGroupProps := brokerNodeGroupProps props in
    let subnetSelection :=
      selectSubnets (vpc brokerNodeGroupProps) (vpcSubnets brokerNodeGroupProps) in
    {| cfn_clusterName := clusterName props;
       cfn_numberOfBrokerNodes :=
         match numberOfBrokerNodes props with Some n => n | None => 1%Z end;
       cfn_brokerAzDistribution :=
         match brokerAzDistribution brokerNodeGroupProps with
         | Some d => if d =? "" then "DEFAULT" else d
         | None => "DEFAULT"
         end;
       cfn_clientSubnets := subnetIds subnetSelection;
       cfn_securityGroups := map securityGroupId (connections_securityGroups conns);
       cfn_volumeSize :=
         match propsVolumeSize props with
         | Some v => if (v =? 0)%Z then 1000%Z else v
         | None => 1000%Z
         end;
       cfn_clientBroker :=
         match encryptionInTransit props ?. clientBroker with
         | Some m => m
         | None => TLS
         end;
       cfn_inCluster :=
         match encryptionInTransit props ?. enableInCluster with
         | Some b => b
         | None => true
         end;
       cfn_clientAuthentication :=
         match clientAuthentication props with
         | Some _ =>
             Some (if truthy_bool (saslScram props) then saslScram props else None,
                   tlsCertificateAuthorityArns props)
         | None => None
         end |}.

  (** The constructor of cluster.ts. *)
Definition Cluster_constructor (props : ClusterProps) : M Cluster :=
    let this :=
      {| this_clusterArn := None;
         this_clusterName := None;
         _connections := Some (newConnections props) |} in
    checkSubnets props ;;
    checkClusterName props ;;
    checkOnlyOneAuth props ;;
    checkAuthEncryption props ;;
    checkVolumeSize props ;;
    conns <- lift (connections this) ;;
    let resource := newResource props conns in
    ret {| base :=
             {| this_clusterArn := Some (Ref "Resource");
                this_clusterName := Some (FnSelectSplit 1 "/" (Ref "Resource"));
                _connections := _connections this |};
           saslScramAuthenticationKey := None;
           resource := resource |}.

  (** The constructor of part_000: no check that only one mechanism is
      set, and the SASL key is kept on the cluster. *)
Definition Cluster_constructor_part_000 (props : ClusterProps) : M Cluster :=
    let this :=
      {| this_clusterArn := None;
         this_clusterName := None;
         _connections := Some (newConnections props) |} in
    checkSubnets props ;;
    checkClusterName props ;;
    checkAuthEncryption props ;;
    checkVolumeSize props ;;
    conns <- lift (connections this) ;;
    let resource := newResource props conns in
    ret {| base :=
             {| this_clusterArn := Some (Ref "Resource");
                this_clusterName := Some (FnSelectSplit 1 "/" (Ref "Resource"));
                _connections := _connections this |};
           saslScramAuthenticationKey := newSaslKey props;
           resource := resource |}.

  (** The diagnostics a construction from no annotations leaves. *)
Definition diagnostics (c : M Cluster) : list string :=
    match c [] with
    | Ok (_, errors) => errors
    | Throw _ => []
    end.

End Constructor.

(** Occurrences of a message among the diagnostics. *)
Definition count (message : string) (errors : list string) : nat :=
  length (filter (String.eqb message) errors).

(** A diagnostic about the cluster name: the message opens with the
    sentence on characters and length. *)
Definition isClusterNameDiagnostic (message : string) : bool :=
  String.prefix
    "The cluster name must only contain alphanumeric characters and have a maximum length of 64 characters."
    message.

End Msk.

(* ================================================================= *)
(** ** Users of a cluster (part_000) *)

Module MskUsers.

(** A [secretsmanager.Secret] child.  [secretStringTemplate] holds the
    object that the source hands to [JSON.stringify]. *)
Record Secret : Type := {
  secret_id : string;
  secretName : string;
  secretStringTemplate : JsValue;
  generateStringKey : string;
  encryptionKey : string
}.

Definition secretArn (s : Secret) : string := secret_id s ++ ".SecretArn".

(** What a statement of the custom resource's policy names: the ARN of
    the key, or the ARN of the cluster. *)
Inductive PolicyResource : Type :=
| KeyArn (key : string)
| ClusterArn (clusterArn : option Msk.CfnValue).

(** The [AwsCustomResource] child that associates the secrets. *)
Record BatchAssociateScramSecrets : Type := {
  batch_id : string;
  batch_action : string;
  batch_ClusterArn : option Msk.CfnValue;
  batch_SecretArnList : list string;
  batch_physicalResourceId : string;
  batch_policy : list (list string * list PolicyResource)
}.

Section AddUser.

(** [addressOf] of the constructs library. *)
Variable addressOf : list string -> string.

Definition newSecret (key username : string) : Secret :=
  {| secret_id := "KafkaUser" ++ username;
     secretName := "AmazonMSK_" ++ username;
     secretStringTemplate := JObject [("username", JString username)];
     generateStringKey := "password";
     encryptionKey := key |}.

(** [addUser(...usernames)]: the children it creates are returned. *)
Definition addUser (this : Msk.Cluster) (usernames : list string)
  : Msk.M (list Secret * option BatchAssociateScramSecrets) :=
  match Msk.saslScramAuthenticationKey this with
  | Some key =>
      let secrets := map (newSecret key) usernames in
      Msk.ret
        (secrets,
         Some {| batch_id := "BatchAssociateScramSecrets" ++ addressOf usernames;
                 batch_action := "batchAssociateScramSecret";
                 batch_ClusterArn := Msk.this_clusterArn (Msk.base this);
                 batch_SecretArnList := map secretArn secrets;
                 batch_physicalResourceId := "CreateUsers";
                 batch_policy :=
                   [ (["kms:CreateGrant"], [KeyArn key]);
                     (["kafka:BatchAssociateScramSecret"],
                      [ClusterArn (Msk.this_clusterArn (Msk.base this))]) ] |})
  | None =>
      Msk.bind
        (Msk.addError
           "Cannot create users if an authentication KMS key has not been created/provided.")
        (fun _ => Msk.ret ([], None))
  end.

End AddUser.
End MskUsers.

(* ================================================================= *)
(** ** The earlier Cluster construct (cluster.ts, second document) *)

Module Msk0.

Inductive EncryptionInTransiteConfig : Type := TLS | TLS_PLAINTEXT | PLAINTEXT.

Definition isPLAINTEXT (c : EncryptionInTransiteConfig) : bool :=
  match c with
  | PLAINTEXT => true
  | _ => false
  end.

Inductive ClusterMonitoringLevel : Type := DEFAULT | PER_BROKER | PER_TOPIC_PER_BROKER.

Record ClusterConfigurationInfo : Type := {
  arn : string;
  revision : Z
}.

(** [encryptionKmsKey] is known by its [keyId]. *)
Record EbsStorageInfo : Type := {
  volumeSize : option Z;
  encryptionKmsKey : option string
}.

Record StorageInfo : Type := {
  ebsStorageInfo : option EbsStorageInfo
}.

Record S3Logging : Type := {
  bucket : string;
  prefix : option string
}.

Record BrokerLoggingConfiguration : Type := {
  firehoseDeliveryStreamArn : option string;
  cloudwatchLogGroup : option string;
  s3 : option S3Logging
}.

Record MonitoringConfiguration : Type := {
  clusterMonitoringLevel : option ClusterMonitoringLevel;
  enableJmxExporter : option bool;
  enablePrometheusNodeExporter : option bool
}.

Record BrokerNodeProps : Type := {
  vpc : Msk.IVpc;
  instanceType : option string;
  vpcSubnets : option string;
  securityGroups : option (list Msk.ISecurityGroup);
  storageInfo : option StorageInfo;
  brokerAZDistribution : option string;
  configurationInfo : option ClusterConfigurationInfo
}.

Record ClusterProps : Type := {
  brokerNodeProps : BrokerNodeProps;
  kafkaVersion : string;
  clusterName : option string;
  numberOfBrokerNodes : option Z;
  tlsAuthenticationConfig : option (list string);
  monitoringConfiguration : option MonitoringConfiguration;
  brokerLoggingConfiguration : option BrokerLoggingConfiguration;
  encryptionInTransitConfig : option EncryptionInTransiteConfig
}.

Record LoggingInfo : Type := {
  cloudWatchLogs_enabled : bool;
  cloudWatchLogs_logGroup : option string;
  firehose_enabled : bool;
  firehose_deliveryStream : option string;
  s3_enabled : bool;
  s3_bucket : option string;
  s3_prefix : option string
}.

(** [prometheus.jmxExporter] and [prometheus.nodeExporter], each
    [{ enabledInBroker: true }] or absent. *)
Record OpenMonitoring : Type := {
  jmxExporter : option bool;
  nodeExporter : option bool
}.

Record CfnClusterProps : Type := {
  cfn_clusterName : option string;
  cfn_numberOfBrokerNodes : Z;
  cfn_clientSubnets : list string;
  cfn_instanceType : string;
  cfn_brokerAzDistribution : string;
  cfn_securityGroups : list string;
  cfn_volumeSize : Z;
  cfn_kafkaVersion : string;
  cfn_certificateAuthorityArnList : option (list string);
  cfn_configurationInfo : option ClusterConfigurationInfo;
  cfn_dataVolumeKmsKeyId : string;
  cfn_encryptionInTransit : option (EncryptionInTransiteConfig * bool);
  cfn_enhancedMonitoring : option ClusterMonitoringLevel;
  cfn_loggingInfo : LoggingInfo;
  cfn_openMonitoring : option OpenMonitoring
}.

Record Cluster : Type := {
  clusterArn : Msk.CfnValue;
  connections : Msk.Connections;
  resource : CfnClusterProps
}.

(** [a.b] where [a] may be [undefined]: reading a property of
    [undefined] throws. *)
Definition member {A B : Type} (name : string) (o : option A) (f : A -> B) : result B :=
  match o with
  | Some a => Ok (f a)
  | None => Throw ("TypeError: Cannot read property '" ++ name ++ "' of undefined")
  end.

(** [props.brokerNodeProps.storageInfo.ebsStorageInfo.encryptionKmsKey.keyId],
    read without optional chaining. *)
Definition dataVolumeKmsKeyId (props : ClusterProps) : result string :=
  match member "ebsStorageInfo" (storageInfo (brokerNodeProps props)) ebsStorageInfo with
  | Throw e => Throw e
  | Ok ebs =>
      match member "encryptionKmsKey" ebs encryptionKmsKey with
      | Throw e => Throw e
      | Ok key => member "keyId" key (fun keyId => keyId)
      end
  end.

Definition newLoggingInfo (props : ClusterProps) : LoggingInfo :=
  let logging := brokerLoggingConfiguration props in
  {| cloudWatchLogs_enabled :=
       match Msk.opt_chain logging cloudwatchLogGroup with Some _ => true | None => false end;
     cloudWatchLogs_logGroup := Msk.opt_chain logging cloudwatchLogGroup;
     firehose_enabled :=
       match Msk.opt_chain logging firehoseDeliveryStreamArn with
       | Some _ => true
       | None => false
       end;
     firehose_deliveryStream := Msk.opt_chain logging firehoseDeliveryStreamArn;
     s3_enabled :=
       match Msk.opt_chain logging s3 with Some _ => true | None => false end;
     s3_bucket := option_map bucket (Msk.opt_chain logging s3);
     s3_prefix := Msk.opt_chain (Msk.opt_chain logging s3) prefix |}.

Definition newOpenMonitoring (props : ClusterProps) : option OpenMonitoring :=
  let jmx :=
    Msk.truthy_bool (Msk.opt_chain (monitoringConfiguration props) enableJmxExporter) in
  let node :=
    Msk.truthy_bool
      (Msk.opt_chain (monitoringConfiguration props) enablePrometheusNodeExporter) in
  if jmx || node
  then Some {| jmxExporter := if jmx then Some true else None;
               nodeExporter := if node then Some true else None |}
  else None.

(** The constructor.  The spread of an absent subnet selection is the
    empty selection, written as the empty string; [this.physicalName] is
    shown as the name the properties give. *)
Definition Cluster_constructor (props : ClusterProps) : result Cluster :=
  let subnetSelection :=
    Msk.selectSubnets (vpc (brokerNodeProps props))
      (Some (match vpcSubnets (brokerNodeProps props) with
             | Some sel => sel
             | None => ""
             end)) in
  let connections :=
    {| Msk.connections_securityGroups :=
         match securityGroups (brokerNodeProps props) with
         | Some groups => groups
         | None => [Msk.SecurityGroup_new "SecurityGroup" ""]
         end |} in
  match dataVolumeKmsKeyId props with
  | Throw e => Throw e
  | Ok keyId =>
      Ok {| clusterArn := Msk.Ref "Resource";
            connections := connections;
            resource :=
              {| cfn_clusterName := clusterName props;
                 cfn_numberOfBrokerNodes :=
                   match numberOfBrokerNodes props with
                   | Some n =>
                       if (n =? 0)%Z
                       then Z.of_nat (length (Msk.subnets subnetSelection))
                       else n
                   | None => Z.of_nat (length (Msk.subnets subnetSelection))
                   end;
                 cfn_clientSubnets := Msk.subnetIds subnetSelection;
                 cfn_instanceType :=
                   match instanceType (brokerNodeProps props) with
                   | Some t => "kafka." ++ t
                   | None => "kafka.t3.small"
                   end;
                 cfn_brokerAzDistribution :=
                   match brokerAZDistribution (brokerNodeProps props) with
                   | Some d => if d =? "" then "DEFAULT" else d
                   | None => "DEFAULT"
                   end;
                 cfn_securityGroups :=
                   map Msk.securityGroupId (Msk.connections_securityGroups connections);
                 cfn_volumeSize :=
                   match Msk.opt_chain
                           (Msk.opt_chain (storageInfo (brokerNodeProps props)) ebsStorageInfo)
                           volumeSize with
                   | Some v => if (v =? 0)%Z then 200%Z else v
                   | None => 200%Z
                   end;
                 cfn_kafkaVersion := kafkaVersion props;
                 cfn_certificateAuthorityArnList := tlsAuthenticationConfig props;
                 cfn_configurationInfo := configurationInfo (brokerNodeProps props);
                 cfn_dataVolumeKmsKeyId := keyId;
                 cfn_encryptionInTransit :=
                   match encryptionInTransitConfig props with
                   | Some c => Some (c, negb (isPLAINTEXT c))
                   | None => None
                   end;
                 cfn_enhancedMonitoring :=
                   Msk.opt_chain (monitoringConfiguration props) clusterMonitoringLevel;
                 cfn_loggingInfo := newLoggingInfo props;
                 cfn_openMonitoring := newOpenMonitoring props |} |}
  end.

(** [Cluster.fromAttributes]: the [Import] class. *)
Record Import : Type := {
  import_clusterArn : string;
  import_connections : Msk.Connections
}.

Definition fromAttributes (attrs_clusterArn : string) : Import :=
  {| import_clusterArn := attrs_clusterArn;
     import_connections := {| Msk.connections_securityGroups := [] |} |}.

End Msk0.

(* ================================================================= *)
(** ** Construction with collaborators that may throw *)

Module MskThrows.
Import Msk.

(** The calls that the constructor makes into other packages and that
    create or change constructs, in the order it makes them, each with
    the message it throws when it throws: [super(scope, id, ...)],
    [vpc.selectSubnets], [new ec2.SecurityGroup], [new kms.Key] with its
    resource policy, [new CfnCluster], [resource.applyRemovalPolicy].  The
    packages are not among the sources, so whether a call throws is a
    parameter; a call that returns gives the value it has in the model
    above.  The constructor catches nothing, so a throw of any of them
    ends the construction. *)
Record Collaborators : Type := {
  throws_Resource : option string;
  throws_selectSubnets : option string;
  throws_SecurityGroup : option string;
  throws_Key : option string;
  throws_CfnCluster : option string;
  throws_applyRemovalPolicy : option string
}.

(** A call that throws, or returns. *)
Definition calling (throws : option string) : M unit :=
  fun errors =>
    match throws with
    | Some message => Throw message
    | None => Ok (tt, errors)
    end.

Section Constructor.

Variable isUnresolved : string -> bool.
Variable env : Collaborators.

(** [new ec2.Connections({ securityGroups: given ?? [new ec2.SecurityGroup(...)] })] *)
Definition makeConnections (props : ClusterProps) : M Connections :=
  match securityGroups (brokerNodeGroupProps props) with
  | Some _ => ret tt
  | None => calling (throws_SecurityGroup env)
  end ;;
  ret (newConnections props).

(** [new kms.Key(this, 'SASLKey', ...)] and its resource policy. *)
Definition makeSaslKey (props : ClusterProps) : M (option string) :=
  match newSaslKey props with
  | Some key => calling (throws_Key env) ;; ret (Some key)
  | None => ret None
  end.

(** The constructor of cluster.ts. *)
Definition Cluster_constructor (props : ClusterProps) : M Cluster :=
  calling (throws_Resource env) ;;
  calling (throws_selectSubnets env) ;;
  conns <- makeConnections props ;;
  let this :=
    {| this_clusterArn := None;
       this_clusterName := None;
       _connections := Some conns |} in
  checkSubnets props ;;
  checkClusterName isUnresolved props ;;
  checkOnlyOneAuth props ;;
  checkAuthEncryption props ;;
  checkVolumeSize props ;;
  makeSaslKey props ;;
  conns' <- lift (connections this) ;;
  let resource := newResource props conns' in
  calling (throws_CfnCluster env) ;;
  calling (throws_applyRemovalPolicy env) ;;
  ret {| base :=
           {| this_clusterArn := Some (Ref "Resource");
              this_clusterName := Some (FnSelectSplit 1 "/" (Ref "Resource"));
              _connections := _connections this |};
         saslScramAuthenticationKey := None;
         resource := resource |}.

(** The constructor of part_000. *)
Definition Cluster_constructor_part_000 (props : ClusterProps) : M Cluster :=
  calling (throws_Resource env) ;;
  calling (throws_selectSubnets env) ;;
  conns <- makeConnections props ;;
  let this :=
    {| this_clusterArn := None;
       this_clusterName := None;
       _connections := Some conns |} in
  checkSubnets props ;;
  checkClusterName isUnresolved props ;;
  checkAuthEncryption props ;;
  checkVolumeSize props ;;
  key <- makeSaslKey props ;;
  conns' <- lift (connections this) ;;
  let resource := newResource props conns' in
  calling (throws_CfnCluster env) ;;
  calling (throws_applyRemovalPolicy env) ;;
  ret {| base :=
           {| this_clusterArn := Some (Ref "Resource");
              this_clusterName := Some (FnSelectSplit 1 "/" (Ref "Resource"));
              _connections := _connections this |};
         saslScramAuthenticationKey := key;
         resource := resource |}.

End Constructor.

(** Every collaborator returns. *)
Definition allReturn : Collaborators :=
  {| throws_Resource := None;
     throws_selectSubnets := None;
     throws_SecurityGroup := None;
     throws_Key := None;
     throws_CfnCluster := None;
     throws_applyRemovalPolicy := None |}.

End MskThrows.

(* ================================================================= *)
(** ** Vocabulary of the statements *)

(** The normal form of one principal-type list of a principal map, where
    it is kept: [_norm] of the list, when that is truthy. *)
Definition normalizedEntry (principal : list (string * list JsValue)) (k : string)
  : option JsValue :=
  match Obj.get principal k with
  | Some vs => if truthy (_norm (JArray vs)) then Some (_norm (JArray vs)) else None
  | None => None
  end.

(** A stored condition value [c] retains [v]: it is [v], or a list with
    [v] in it. *)
Definition retains (c v : JsValue) : Prop :=
  c = v \/ exists vs, c = JArray vs /\ In v vs.

(** Modelled from the spec: the fragment of the [Anyone] principal of
    ./principals, which is not among the sources: "a principal fragment
    with tag "AWS" value "*" and no other tags/keys". *)
Definition Anyone : PrincipalPolicyFragment :=
  {| principalJson := [("AWS", [JString "*"])]; conditions := [] |}.

(** What a check adds when run on a construct without annotations. *)
Definition output (m : Msk.M unit) : list string :=
  match m [] with
  | Ok (_, errors) => errors
  | Throw _ => []
  end.

(** A client-authentication block is present in the properties. *)
Definition authenticationBlockSet (props : Msk.ClusterProps) : Prop :=
  Msk.opt_chain (Msk.clientAuthentication props) Msk.tls <> None
  \/ Msk.opt_chain (Msk.clientAuthentication props) Msk.sasl <> None.

(** A client-authentication mechanism is switched on: certificate
    authorities are listed for TLS, or SCRAM is [true]. *)
Definition authenticationEnabled (props : Msk.ClusterProps) : Prop :=
  Msk.tlsCertificateAuthorityArns props <> None
  \/ Msk.saslScram props = Some true.

(** *** Properties for the examples *)

(** [s] occurs in [t]. *)
Fixpoint occurs (s t : string) : bool :=
  String.prefix s t
  || match t with
     | EmptyString => false
     | String _ t' => occurs s t'
     end.

(** An instance of [isUnresolved] for the examples: a string is unresolved
    when it carries the marker of an encoded token. *)
Definition hasTokenMarker (s : string) : bool := occurs "${Token[" s.

Definition exampleVpc : Msk.IVpc :=
  {| Msk.selectSubnets := fun _ => {| Msk.subnetIds := ["subnet-a"; "subnet-b"] |} |}.

Definition exampleProps
  (name : string) (auth : option Msk.ClientAuthentication)
  (mode : option Msk.ClientBrokerEncryption) (size : option Z) : Msk.ClusterProps :=
  {| Msk.clusterName := name;
     Msk.brokerNodeGroupProps :=
       {| Msk.vpc := exampleVpc;
          Msk.vpcSubnets := None;
          Msk.securityGroups := None;
          Msk.storageInfo :=
            Some {| Msk.ebsStorageInfo :=
                      Some {| Msk.volumeSize := size; Msk.kmsKey := None |} |};
          Msk.brokerAzDistribution := None |};
     Msk.clientAuthentication := auth;
     Msk.encryptionInTransit :=
       Some {| Msk.clientBroker := mode; Msk.enableInCluster := None |};
     Msk.numberOfBrokerNodes := None |}.

Definition saslAuthentication (enabled : bool) : Msk.ClientAuthentication :=
  {| Msk.tls := None;
     Msk.sasl := Some {| Msk.scram := Some enabled; Msk.key := None |} |}.

Definition tlsAuthentication (arns : list string) : Msk.ClientAuthentication :=
  {| Msk.tls := Some {| Msk.certificateAuthorityArns := Some arns |};
     Msk.sasl := None |}.

(** *** Vocabulary of the further properties *)

(** The effect the calls leave, from the one the statement starts with. *)
Definition effect_after (calls : list BuilderCall) (start : PolicyStatementEffect)
  : PolicyStatementEffect :=
  fold_left (fun e c => match c with
                        | CallAllow => Allow
                        | CallDeny => Deny
                        | _ => e
                        end) calls start.

(** The statement id the calls leave: that of the last [describe]. *)
Definition sid_after (calls : list BuilderCall) : JsValue :=
  fold_left (fun v c => match c with
                        | CallDescribe d => JString d
                        | _ => v
                        end) calls JUndefined.

(** The keys of a principal map whose lists are kept, in the map's order. *)
Definition keptKeys (principal : list (string * list JsValue)) : list string :=
  filter (fun k => match normalizedEntry principal k with
                   | Some _ => true
                   | None => false
                   end) (Obj.keys principal).

(** The statements a base document brings: its [Statement] array, none
    when [Statement] is absent or falsy; [None] when [Statement] is a
    truthy value that is no array. *)
Definition baseStatements (base : option (list (string * JsValue)))
  : option (list JsValue) :=
  match base with
  | None => Some []
  | Some o =>
      match Obj.get o "Statement" with
      | None => Some []
      | Some (JArray l) => Some l
      | Some v => if truthy v then None else Some []
      end
  end.

(** The version a base document brings, the default when it has none. *)
Definition baseVersion (base : option (list (string * JsValue))) : JsValue :=
  match Msk.opt_chain base (fun o => Obj.get o "Version") with
  | Some v => if truthy v then v else JString "2012-10-17"
  | None => JString "2012-10-17"
  end.

(** A diagnostic about the number of subnets. *)
Definition isSubnetsDiagnostic (message : string) : bool :=
  String.prefix "Cluster requires at least 2 subnets, got " message.

(** The number of subnets the properties select. *)
Definition subnetCount (props : Msk.ClusterProps) : nat :=
  length (Msk.subnets
            (Msk.selectSubnets (Msk.vpc (Msk.brokerNodeGroupProps props))
                               (Msk.vpcSubnets (Msk.brokerNodeGroupProps props)))).

(** No character of [s] is [d]. *)
Definition free_of (d : ascii) (s : string) : bool :=
  forallb (fun c => negb (Ascii.eqb c d)) (list_ascii_of_string s).

(** The key the earlier constructor reads for encryption at rest. *)
Definition givenKmsKey (props : Msk0.ClusterProps) : option string :=
  Msk.opt_chain
    (Msk.opt_chain (Msk0.storageInfo (Msk0.brokerNodeProps props)) Msk0.ebsStorageInfo)
    Msk0.encryptionKmsKey.

Definition exampleProps0 (storage : option Msk0.StorageInfo) (nodes : option Z)
  : Msk0.ClusterProps :=
  {| Msk0.brokerNodeProps :=
       {| Msk0.vpc := exampleVpc;
          Msk0.instanceType := None;
          Msk0.vpcSubnets := None;
          Msk0.securityGroups := None;
          Msk0.storageInfo := storage;
          Msk0.brokerAZDistribution := None;
          Msk0.configurationInfo := None |};
     Msk0.kafkaVersion := "2.2.1";
     Msk0.clusterName := None;
     Msk0.numberOfBrokerNodes := nodes;
     Msk0.tlsAuthenticationConfig := None;
     Msk0.monitoringConfiguration := None;
     Msk0.brokerLoggingConfiguration := None;
     Msk0.encryptionInTransitConfig := None |}.

(** An instance of [Token_toString] for the examples: the marker names
    the statement by its id. *)
Definition exampleTokenString (s : PolicyStatement) : string :=
  match sid s with
  | JString id => "${Token[" ++ id ++ "]}"
  | _ => "${Token[statement]}"
  end.

(** An instance of [addressOf] for the examples. *)
Definition joinNames (usernames : list string) : string := String.concat "-" usernames.

(** *** Vocabulary of construction *)

(** The first message of a list of calls that throws. *)
Fixpoint firstThrow (calls : list (option string)) : option string :=
  match calls with
  | [] => None
  | Some message :: _ => Some message
  | None :: rest => firstThrow rest
  end.

(** The collaborator calls that a construction from [props] makes, in
    order: the security group only when none is given, the key only when
    SCRAM is on and no key is given. *)
Definition callsMade (env : MskThrows.Collaborators) (props : Msk.ClusterProps)
  : list (option string) :=
  [ MskThrows.throws_Resource env;
    MskThrows.throws_selectSubnets env;
    match Msk.securityGroups (Msk.brokerNodeGroupProps props) with
    | Some _ => None
    | None => MskThrows.throws_SecurityGroup env
    end;
    match Msk.newSaslKey props with
    | Some _ => MskThrows.throws_Key env
    | None => None
    end;
    MskThrows.throws_CfnCluster env;
    MskThrows.throws_applyRemovalPolicy env ].

(** The configuration problems of [props] that part_000 looks for, each
    with its message, in the order of the checks. *)
Definition problems_part_000 (isUnresolved : string -> bool) (props : Msk.ClusterProps)
  : list string :=
  (if (subnetCount props <? 2)%nat then [Msk.subnetsMessage (subnetCount props)] else [])
  ++ (if negb (isUnresolved (Msk.clusterName props))
         && negb (Msk.test_alphanumeric (Msk.clusterName props))
         && (64 <? String.length (Msk.clusterName props))%nat
      then [Msk.clusterNameMessage (Msk.clusterName props)] else [])
  ++ (if Msk.clientBrokerIs props Msk.PLAINTEXT
         && (Msk.truthy_array (Msk.tlsCertificateAuthorityArns props)
             || Msk.truthy_bool (Msk.saslScram props))
      then [Msk.authNeedsTlsMessage]
      else if Msk.clientBrokerIs props Msk.TLS_PLAINTEXT
              && Msk.truthy_bool (Msk.saslScram props)
           then [Msk.scramNeedsTlsOnlyMessage]
           else [])
  ++ (match Msk.propsVolumeSize props with
      | Some v => if (v <? 1)%Z || (16384 <? v)%Z then [Msk.volumeSizeMessage] else []
      | None => []
      end).

(** The same for cluster.ts, which also looks for both mechanisms set. *)
Definition problems (isUnresolved : string -> bool) (props : Msk.ClusterProps)
  : list string :=
  (if (subnetCount props <? 2)%nat then [Msk.subnetsMessage (subnetCount props)] else [])
  ++ (if negb (isUnresolved (Msk.clusterName props))
         && negb (Msk.test_alphanumeric (Msk.clusterName props))
         && (64 <? String.length (Msk.clusterName props))%nat
      then [Msk.clusterNameMessage (Msk.clusterName props)] else [])
  ++ (if Msk.truthy_array (Msk.tlsCertificateAuthorityArns props)
         && Msk.truthy_bool (Msk.saslScram props)
      then [Msk.onlyOneAuthMessage] else [])
  ++ (if Msk.clientBrokerIs props Msk.PLAINTEXT
         && (Msk.truthy_array (Msk.tlsCertificateAuthorityArns props)
             || Msk.truthy_bool (Msk.saslScram props))
      then [Msk.authNeedsTlsMessage]
      else if Msk.clientBrokerIs props Msk.TLS_PLAINTEXT
              && Msk.truthy_bool (Msk.saslScram props)
           then [Msk.scramNeedsTlsOnlyMessage]
           else [])
  ++ (match Msk.propsVolumeSize props with
      | Some v => if (v <? 1)%Z || (16384 <? v)%Z then [Msk.volumeSizeMessage] else []
      | None => []
      end).

(** A VPC without the subnets asked for: [selectSubnets] throws. *)
Definition noSuchSubnets : MskThrows.Collaborators :=
  {| MskThrows.throws_Resource := None;
     MskThrows.throws_selectSubnets :=
       Some "There are no 'Isolated' subnet groups in this VPC. Available types: Public";
     MskThrows.throws_SecurityGroup := None;
     MskThrows.throws_Key := None;
     MskThrows.throws_CfnCluster := None;
     MskThrows.throws_applyRemovalPolicy := None |}.

(* ================================================================= *)
(** * Properties *)

(** ** Objects *)

Section ObjFacts.
Context {V : Type}.
Implicit Types (o : list (string * V)) (k : string) (v : V).

Lemma get_set o k k' v :
    Obj.get (Obj.set o k v) k' = if k =? k' then Some v else Obj.get o k'.
Proof.
    induction o as [|[k0 v0] o IH]; simpl.
    - reflexivity.
    - destruct (k0 =? k) eqn:E0; simpl.
      + apply String.eqb_eq in E0; subst k0.
        destruct (k =? k'); reflexivity.
      + rewrite IH. destruct (k0 =? k') eqn:E1; [|reflexivity].
        apply String.eqb_eq in E1; subst k0. now rewrite String.eqb_sym, E0.
Qed.

Lemma get_set_same o k v : Obj.get (Obj.set o k v) k = Some v.
Proof. now rewrite get_set, String.eqb_refl. Qed.

Lemma get_None_iff o k : Obj.get o k = None <-> ~ In k (Obj.keys o).
Proof.
    induction o as [|[k0 v0] o IH]; simpl.
    - tauto.
    - destruct (k0 =? k) eqn:E.
      + apply String.eqb_eq in E. split; [discriminate | intros H; exfalso; auto].
      + apply String.eqb_neq in E. rewrite IH. tauto.
Qed.

Lemma get_Some_in o k v : Obj.get o k = Some v -> In k (Obj.keys o).
Proof.
    intros H. destruct (in_dec string_dec k (Obj.keys o)) as [Hin|Hout]; [assumption|].
    apply get_None_iff in Hout. congruence.
Qed.

Lemma keys_set_length o k v :
    length (Obj.keys (Obj.set o k v))
    = match Obj.get o k with Some _ => length (Obj.keys o) | None => S (length (Obj.keys o)) end.
Proof.
    induction o as [|[k0 v0] o IH]; simpl; [reflexivity|].
    destruct (k0 =? k); simpl; [reflexivity|].
    rewrite IH. now destruct (Obj.get o k).
Qed.

  (** An object with one key is known by what it holds under that key. *)
Lemma singleton_object o k v :
    length (Obj.keys o) = 1 -> Obj.get o k = Some v -> o = [(k, v)].
Proof.
    destruct o as [|[k0 v0] [|? ?]]; simpl; try discriminate.
    intros _. destruct (k0 =? k) eqn:E; [|discriminate].
    apply String.eqb_eq in E. congruence.
Qed.
End ObjFacts.

(** A fold that leaves a projection alone at every step leaves it alone. *)
Lemma fold_left_preserves {A B C : Type} (f : A -> B -> A) (p : A -> C) :
  (forall a b, p (f a b) = p a) -> forall l a, p (fold_left f l a) = p a.
Proof.
  intros Hf l. induction l as [|b l IH]; intros a; simpl; [reflexivity|].
  now rewrite IH.
Qed.

(** ** Fields the builder calls touch *)

Lemma action_addActions l s : action (addActions l s) = action s ++ map JString l.
Proof.
  unfold addActions. revert s. induction l as [|a l IH]; intros s; simpl.
  - now rewrite app_nil_r.
  - rewrite IH. simpl. now rewrite <- app_assoc.
Qed.

Lemma resource_addResources l s : resource (addResources l s) = resource s ++ map JString l.
Proof.
  unfold addResources. revert s. induction l as [|a l IH]; intros s; simpl.
  - now rewrite app_nil_r.
  - rewrite IH. simpl. now rewrite <- app_assoc.
Qed.

Lemma addConditions_action c s : action (addConditions c s) = action s.
Proof. unfold addConditions. now apply fold_left_preserves. Qed.

Lemma addConditions_resource c s : resource (addConditions c s) = resource s.
Proof. unfold addConditions. now apply fold_left_preserves. Qed.

Lemma addConditions_effect c s : effect (addConditions c s) = effect s.
Proof. unfold addConditions. now apply fold_left_preserves. Qed.

Lemma addConditions_principal c s : principal (addConditions c s) = principal s.
Proof. unfold addConditions. now apply fold_left_preserves. Qed.

Lemma action_call c s :
  action (call c s) = action s ++ map JString (actions_added [c]).
Proof.
  destruct c; simpl; rewrite ?app_nil_r; try reflexivity.
  - apply action_addActions.
  - unfold addPrincipal. now rewrite addConditions_action.
  - unfold addResources. now apply fold_left_preserves.
  - apply addConditions_action.
Qed.

Lemma resource_call c s :
  resource (call c s) = resource s ++ map JString (resources_added [c]).
Proof.
  destruct c; simpl; rewrite ?app_nil_r; try reflexivity.
  - unfold addActions. now apply fold_left_preserves.
  - unfold addPrincipal. now rewrite addConditions_resource.
  - apply resource_addResources.
  - apply addConditions_resource.
Qed.

Lemma action_build calls s :
  action (build calls s) = action s ++ map JString (actions_added calls).
Proof.
  unfold build. revert s. induction calls as [|c calls IH]; intros s.
  - simpl. now rewrite app_nil_r.
  - cbn [fold_left]. rewrite IH, action_call.
    replace (actions_added (c :: calls)) with (actions_added [c] ++ actions_added calls)
      by (unfold actions_added; simpl; now rewrite app_nil_r).
    now rewrite map_app, app_assoc.
Qed.

Lemma resource_build calls s :
  resource (build calls s) = resource s ++ map JString (resources_added calls).
Proof.
  unfold build. revert s. induction calls as [|c calls IH]; intros s.
  - simpl. now rewrite app_nil_r.
  - cbn [fold_left]. rewrite IH, resource_call.
    replace (resources_added (c :: calls)) with (resources_added [c] ++ resources_added calls)
      by (unfold resources_added; simpl; now rewrite app_nil_r).
    now rewrite map_app, app_assoc.
Qed.

(** Every builder call leaves the statement with an effect. *)
Lemma effect_call c s : effect s <> None -> effect (call c s) <> None.
Proof.
  intros H. destruct c; simpl; try assumption; try discriminate.
  - unfold addActions. now rewrite fold_left_preserves.
  - unfold addPrincipal. now rewrite addConditions_effect.
  - unfold addResources. now rewrite fold_left_preserves.
  - now rewrite addConditions_effect.
Qed.

Lemma effect_build calls s : effect s <> None -> effect (build calls s) <> None.
Proof.
  unfold build. revert s. induction calls as [|c calls IH]; intros s H; simpl.
  - assumption.
  - apply IH. now apply effect_call.
Qed.

(** ** The emitted fields *)

Lemma prop_Action s : prop (toJson s) "Action" = _norm (JArray (action s)).
Proof. reflexivity. Qed.

Lemma prop_Condition s : prop (toJson s) "Condition" = _norm (JObject (condition s)).
Proof. reflexivity. Qed.

Lemma prop_Principal s : prop (toJson s) "Principal" = _normPrincipal (principal s).
Proof. reflexivity. Qed.

Lemma prop_Resource s : prop (toJson s) "Resource" = _norm (JArray (resource s)).
Proof. reflexivity. Qed.

Lemma prop_norm_object c k :
  prop (_norm (JObject c)) k = match Obj.get c k with Some v => v | None => JUndefined end.
Proof. destruct c as [|[k0 v0] c]; reflexivity. Qed.

Lemma emitted_norm_strings l : emitted (_norm (JArray (map JString l))) = map JString l.
Proof. destruct l as [|a [|b l]]; reflexivity. Qed.

(** ** Conditions *)

Lemma condition_fold_addCondition (val : string -> JsValue) ks s k :
  Obj.get (condition (fold_left (fun st key => addCondition key (val key) st) ks s)) k
  = if in_dec string_dec k ks then Some (val k) else Obj.get (condition s) k.
Proof.
  revert s. induction ks as [|k0 ks IH]; intros s.
  - reflexivity.
  - cbn [fold_left]. rewrite IH. cbn [addCondition condition].
    rewrite get_set.
    destruct (in_dec string_dec k ks) as [Hin|Hout];
      destruct (in_dec string_dec k (k0 :: ks)) as [Hin'|Hout'];
      try reflexivity.
    + exfalso. apply Hout'. now right.
    + destruct Hin' as [->|Hin']; [|contradiction].
      now rewrite String.eqb_refl.
    + destruct (k0 =? k) eqn:E; [|reflexivity].
      apply String.eqb_eq in E. exfalso. apply Hout'. now left.
Qed.

Lemma condition_addConditions c s k :
  Obj.get (condition (addConditions c s)) k
  = match Obj.get c k with
    | Some v => Some v
    | None => Obj.get (condition s) k
    end.
Proof.
  unfold addConditions.
  rewrite (condition_fold_addCondition
             (fun key => match Obj.get c key with Some v => v | None => JUndefined end)).
  destruct (in_dec string_dec k (Obj.keys c)) as [Hin|Hout].
  - destruct (Obj.get c k) eqn:E; [reflexivity|].
    apply get_None_iff in E. contradiction.
  - apply get_None_iff in Hout. now rewrite Hout.
Qed.

(** ** The principal map *)

Lemma normPrincipal_result_fold principal ks acc k :
  Obj.get
    (fold_left
       (fun result key =>
          let normVal :=
            _norm (match Obj.get principal key with
                   | Some vs => JArray vs
                   | None => JUndefined
                   end) in
          if truthy normVal then Obj.set result key normVal else result)
       ks acc) k
  = if in_dec string_dec k ks
    then match normalizedEntry principal k with
         | Some v => Some v
         | None => Obj.get acc k
         end
    else Obj.get acc k.
Proof.
  set (nv := fun key => _norm (match Obj.get principal key with
                                | Some vs => JArray vs
                                | None => JUndefined
                                end)).
  assert (Hentry : normalizedEntry principal k
                   = if truthy (nv k) then Some (nv k) else None).
  { unfold normalizedEntry, nv. now destruct (Obj.get principal k). }
  rewrite Hentry. clear Hentry.
  change (Obj.get
            (fold_left
               (fun result key =>
                  if truthy (nv key) then Obj.set result key (nv key) else result)
               ks acc) k
          = if in_dec string_dec k ks
            then match (if truthy (nv k) then Some (nv k) else None) with
                 | Some v => Some v
                 | None => Obj.get acc k
                 end
            else Obj.get acc k).
  revert acc. induction ks as [|k0 ks IH]; intros acc.
  - reflexivity.
  - cbn [fold_left]. rewrite IH. clear IH.
    destruct (string_dec k0 k) as [->|Hne].
    + destruct (in_dec string_dec k (k :: ks)) as [_|Hout'];
        [|exfalso; apply Hout'; now left].
      destruct (truthy (nv k)).
      * rewrite get_set_same. now destruct (in_dec string_dec k ks).
      * now destruct (in_dec string_dec k ks).
    + assert (Hacc : Obj.get (if truthy (nv k0) then Obj.set acc k0 (nv k0) else acc) k
                     = Obj.get acc k).
      { destruct (truthy (nv k0)); [|reflexivity].
        rewrite get_set. apply String.eqb_neq in Hne. now rewrite Hne. }
      rewrite Hacc.
      destruct (in_dec string_dec k ks) as [Hin|Hout];
        destruct (in_dec string_dec k (k0 :: ks)) as [Hin'|Hout'];
        try reflexivity.
      * exfalso. apply Hout'. now right.
      * destruct Hin' as [E|Hin']; [now subst|contradiction].
Qed.

Lemma get_normPrincipal_result principal k :
  Obj.get (_normPrincipal_result principal) k = normalizedEntry principal k.
Proof.
  unfold _normPrincipal_result. rewrite normPrincipal_result_fold. simpl.
  destruct (in_dec string_dec k (Obj.keys principal)) as [Hin|Hout].
  - now destruct (normalizedEntry principal k).
  - unfold normalizedEntry. apply get_None_iff in Hout. now rewrite Hout.
Qed.

Lemma collapse_iff (r : list (string * JsValue)) :
  ((length (Obj.keys r) =? 1)%nat
   && strict_eq_string (match Obj.get r "AWS" with
                        | Some v => v
                        | None => JUndefined
                        end) "*") = true
  <-> r = [("AWS", JString "*")].
Proof.
  split.
  - intros H. apply andb_true_iff in H as [Hlen Hstar].
    apply Nat.eqb_eq in Hlen.
    destruct (Obj.get r "AWS") as [v|] eqn:E; [|discriminate].
    destruct v; try discriminate. simpl in Hstar.
    apply String.eqb_eq in Hstar; subst.
    now apply singleton_object.
  - intros ->. reflexivity.
Qed.

Lemma normPrincipal_cases principal :
  principal <> [] ->
  _normPrincipal principal
  = if (length (Obj.keys (_normPrincipal_result principal)) =? 1)%nat
       && strict_eq_string (match Obj.get (_normPrincipal_result principal) "AWS" with
                            | Some v => v
                            | None => JUndefined
                            end) "*"
    then JString "*"
    else JObject (_normPrincipal_result principal).
Proof.
  intros H. unfold _normPrincipal.
  destruct principal as [|[k vs] p]; [contradiction|reflexivity].
Qed.

(* ================================================================= *)
(** ** PolicyDocument.resolve *)

(** C1.  A document to which no statement was added resolves to
    [undefined], whatever base document it was constructed with: none, or
    one that already holds statements.  In the second case the base
    document's statements are not emitted. *)
Theorem PolicyDocument_resolve_no_statement_added
  (Token_toString : PolicyStatement -> string)
  (base : option (list (string * JsValue))) :
  PolicyDocument_resolve Token_toString (PolicyDocument_new base) = Ok JUndefined.
Proof. reflexivity. Qed.

(** The base document of one statement and no version, with nothing added. *)
Example PolicyDocument_resolve_base_only (Token_toString : PolicyStatement -> string) :
  PolicyDocument_resolve Token_toString
    (PolicyDocument_new
       (Some [("Statement",
               JArray [JObject [("Effect", JString "Allow");
                                ("Action", JString "s3:GetObject");
                                ("Resource", JString "*")]])]))
  = Ok JUndefined.
Proof. reflexivity. Qed.

(** Once a statement is added, the base statements come first and the
    version is defaulted. *)
Example PolicyDocument_resolve_base_and_statement
  (Token_toString : PolicyStatement -> string) :
  PolicyDocument_resolve Token_toString
    (addStatement (addAllResources (addAction "s3:PutObject" (PolicyStatement_new None)))
       (PolicyDocument_new (Some [("Statement", JArray [JString "existing"])])))
  = Ok (JObject
          [("Statement",
            JArray [JString "existing";
                    JObject [("Action", JString "s3:PutObject");
                             ("Condition", JUndefined);
                             ("Effect", JString "Allow");
                             ("Principal", JUndefined);
                             ("Resource", JString "*");
                             ("Sid", JUndefined)]]);
           ("Version", JString "2012-10-17")]).
Proof. reflexivity. Qed.

(** A base [Statement] that is a string takes the string form of the
    added statements. *)
Example PolicyDocument_resolve_string_statement :
  PolicyDocument_resolve exampleTokenString
    (addStatement (describe "s1" (PolicyStatement_new None))
       (PolicyDocument_new (Some [("Statement", JString "text")])))
  = Ok (JObject [("Statement", JString "text${Token[s1]}");
                 ("Version", JString "2012-10-17")]).
Proof. reflexivity. Qed.

(* ================================================================= *)
(** ** PolicyStatement.toJson *)

(** C3, as stated, fails on a principal-type list whose single element is
    falsy: the list [[""]] under [AWS] leaves no [AWS] key, and the
    principal is not the bare element either. *)
Lemma toJson_single_falsy_principal_counterexample :
  ~ (forall s k v,
        Obj.get (principal s) k = Some [v] ->
        prop (prop (toJson s) "Principal") k = v \/ prop (toJson s) "Principal" = v).
Proof.
  intros H.
  specialize (H {| action := [];
                   principal := [("AWS", [JString ""])];
                   resource := [];
                   condition := [];
                   effect := Some Allow;
                   sid := JUndefined |}
                "AWS" (JString "") eq_refl).
  destruct H as [H|H]; discriminate H.
Qed.

(** That statement is the one a principal with the empty ARN leaves, and
    its principal is emitted as the empty object. *)
Example toJson_empty_arn_principal :
  addPrincipal {| principalJson := [("AWS", [JString ""])]; conditions := [] |}
               (PolicyStatement_new None)
  = {| action := [];
       principal := [("AWS", [JString ""])];
       resource := [];
       condition := [];
       effect := Some Allow;
       sid := JUndefined |}
  /\ prop (toJson (addPrincipal
                     {| principalJson := [("AWS", [JString ""])]; conditions := [] |}
                     (PolicyStatement_new None))) "Principal"
     = JObject [].
Proof. split; reflexivity. Qed.

(** C3, amended.  Actions and resources: no element, the field is absent;
    one element, the bare element; two or more, the array as inserted.
    Each principal-type list: no element, its key is absent; one truthy
    element, the bare element, under its key or as the whole principal
    when the map collapses to the wildcard; one falsy element, its key is
    absent; two or more, the array as inserted under its key. *)
Theorem toJson_array_fields (s : PolicyStatement) :
  prop (toJson s) "Action"
  = match action s with
    | [] => JUndefined
    | [v] => v
    | _ => JArray (action s)
    end
  /\ prop (toJson s) "Resource"
     = match resource s with
       | [] => JUndefined
       | [v] => v
       | _ => JArray (resource s)
       end
  /\ forall k vs,
      Obj.get (principal s) k = Some vs ->
      match vs with
      | [] => prop (prop (toJson s) "Principal") k = JUndefined
      | [v] =>
          if truthy v
          then prop (prop (toJson s) "Principal") k = v
               \/ prop (toJson s) "Principal" = v
          else prop (prop (toJson s) "Principal") k = JUndefined
      | _ => prop (prop (toJson s) "Principal") k = JArray vs
      end.
Proof.
  split; [|split].
  - rewrite prop_Action. now destruct (action s) as [|a [|b l]].
  - rewrite prop_Resource. now destruct (resource s) as [|a [|b l]].
  - intros k vs Hk. rewrite prop_Principal.
    assert (Hne : principal s <> []).
    { intros E. rewrite E in Hk. discriminate. }
    rewrite (normPrincipal_cases _ Hne).
    pose proof (get_normPrincipal_result (principal s) k) as Hget.
    unfold normalizedEntry in Hget. rewrite Hk in Hget.
    destruct (_ && _) eqn:C.
    + apply collapse_iff in C. rewrite C in Hget.
      destruct vs as [|v [|v' vs]]; cbn [_norm] in Hget.
      * reflexivity.
      * revert Hget. destruct (truthy v); [|reflexivity].
        intros Hget. right. cbn [Obj.get] in Hget.
        destruct ("AWS" =? k); congruence.
      * cbn [Obj.get truthy] in Hget. destruct ("AWS" =? k); discriminate.
    + cbn [prop]. rewrite Hget.
      destruct vs as [|v [|v' vs]]; cbn [_norm truthy]; try reflexivity.
      destruct (truthy v); [now left | reflexivity].
Qed.

(** Both branches of the principal clause at concrete maps. *)
Lemma toJson_array_fields_witness :
  prop (prop (toJson (addPrincipal
                        {| principalJson := [("Service", [JString "sns.amazonaws.com"])];
                           conditions := [] |}
                        (PolicyStatement_new None))) "Principal") "Service"
  = JString "sns.amazonaws.com"
  \/ prop (toJson (addPrincipal
                     {| principalJson := [("Service", [JString "sns.amazonaws.com"])];
                        conditions := [] |}
                     (PolicyStatement_new None))) "Principal"
     = JString "sns.amazonaws.com".
Proof.
  exact (proj2 (proj2 (toJson_array_fields
                         (addPrincipal
                            {| principalJson := [("Service", [JString "sns.amazonaws.com"])];
                               conditions := [] |}
                            (PolicyStatement_new None))))
               "Service" [JString "sns.amazonaws.com"] eq_refl).
Defined.

(** C4.  The principal map after per-key normalisation holds, under each
    key, the normal form of that key's list where it is kept.  When it is
    exactly the one key [AWS] with value ["*"], the emitted principal is
    the scalar ["*"]; for any other non-empty principal map the normalised
    object is emitted. *)
Theorem normPrincipal_wildcard_collapse (s : PolicyStatement) :
  (forall k,
      Obj.get (_normPrincipal_result (principal s)) k = normalizedEntry (principal s) k)
  /\ (_normPrincipal_result (principal s) = [("AWS", JString "*")] ->
      prop (toJson s) "Principal" = JString "*")
  /\ (principal s <> [] ->
      _normPrincipal_result (principal s) <> [("AWS", JString "*")] ->
      prop (toJson s) "Principal" = JObject (_normPrincipal_result (principal s))).
Proof.
  split; [|split].
  - intros k. apply get_normPrincipal_result.
  - intros H. rewrite prop_Principal.
    assert (Hne : principal s <> []).
    { intros E. rewrite E in H. discriminate. }
    rewrite (normPrincipal_cases _ Hne).
    apply collapse_iff in H. now rewrite H.
  - intros Hne H. rewrite prop_Principal, (normPrincipal_cases _ Hne).
    destruct (_ && _) eqn:C; [|reflexivity].
    apply collapse_iff in C. contradiction.
Qed.

(** The fragment of [Anyone] merged into a fresh statement, and a service
    principal next to it. *)
Lemma normPrincipal_wildcard_collapse_witness :
  prop (toJson (addPrincipal Anyone (PolicyStatement_new None))) "Principal" = JString "*"
  /\ prop (toJson (addPrincipal
                     {| principalJson := [("Service", [JString "sns.amazonaws.com"])];
                        conditions := [] |}
                     (addPrincipal Anyone (PolicyStatement_new None)))) "Principal"
     = JObject [("AWS", JString "*"); ("Service", JString "sns.amazonaws.com")].
Proof.
  split.
  - apply (normPrincipal_wildcard_collapse
             (addPrincipal Anyone (PolicyStatement_new None))).
    reflexivity.
  - apply (normPrincipal_wildcard_collapse
             (addPrincipal
                {| principalJson := [("Service", [JString "sns.amazonaws.com"])];
                   conditions := [] |}
                (addPrincipal Anyone (PolicyStatement_new None)))).
    + simpl. discriminate.
    + simpl. discriminate.
Defined.

(* ================================================================= *)
(** ** Conditions of a statement *)

(** C5, as stated, fails: after two adds under one operator key the stored
    value does not retain the earlier one. *)
Lemma addCondition_append_counterexample :
  ~ (forall s k v1 v2,
        exists c,
          Obj.get (condition (addCondition k v2 (addCondition k v1 s))) k = Some c
          /\ retains c v1 /\ retains c v2).
Proof.
  intros H.
  destruct (H (PolicyStatement_new None) "StringEquals"
              (JObject [("aws:SourceAccount", JString "111111111111")])
              (JObject [("sts:ExternalId", JString "222222222222")]))
    as [c [Hc [[H1|[vs [H1 _]]] _]]];
    cbn [addCondition condition PolicyStatement_new Obj.set] in Hc;
    rewrite String.eqb_refl in Hc; cbn [Obj.get] in Hc;
    rewrite String.eqb_refl in Hc; congruence.
Qed.

(** C5, amended.  A condition add stores its value under the operator key
    in place of whatever the key held: after two adds under one key the
    later value alone is stored and emitted, and other keys keep their
    values.  The conditions of a principal fragment go the same way: each
    of the fragment's keys takes the fragment's value, the other keys keep
    theirs. *)
Theorem addCondition_replaces
  (s : PolicyStatement) (k : string) (v1 v2 : JsValue) (f : PrincipalPolicyFragment) :
  Obj.get (condition (addCondition k v2 (addCondition k v1 s))) k = Some v2
  /\ prop (prop (toJson (addCondition k v2 (addCondition k v1 s))) "Condition") k = v2
  /\ (forall k',
         Obj.get (condition (addCondition k v2 s)) k'
         = if k =? k' then Some v2 else Obj.get (condition s) k')
  /\ (forall k',
         Obj.get (condition (addPrincipal f s)) k'
         = match Obj.get (conditions f) k' with
           | Some v => Some v
           | None => Obj.get (condition s) k'
           end).
Proof.
  repeat split.
  - cbn [addCondition condition]. apply get_set_same.
  - rewrite prop_Condition, prop_norm_object.
    cbn [addCondition condition]. now rewrite get_set_same.
  - intros k'. cbn [addCondition condition]. apply get_set.
  - intros k'. unfold addPrincipal. now rewrite condition_addConditions.
Qed.

(** With a principal fragment: the fragment's [StringEquals] takes the
    place of the one set before. *)
Example addPrincipal_condition_replaces :
  prop (toJson
          (addPrincipal
             {| principalJson := [("Federated", [JString "cognito-identity.amazonaws.com"])];
                conditions := [("StringEquals", JObject [("aud", JString "pool")])] |}
             (limitToAccount "111111111111" (PolicyStatement_new None))))
       "Condition"
  = JObject [("StringEquals", JObject [("aud", JString "pool")])].
Proof. reflexivity. Qed.

(* ================================================================= *)
(** ** Actions and resources of a statement *)

(** C6, as stated, fails: adding an action that is already present changes
    the output. *)
Lemma addAction_duplicate_counterexample :
  ~ (forall s a, In (JString a) (action s) -> toJson (addAction a s) = toJson s).
Proof.
  intros H.
  specialize (H (addAction "s3:GetObject" (PolicyStatement_new None)) "s3:GetObject"
                (or_introl eq_refl)).
  discriminate H.
Qed.

Example addAction_twice :
  prop (toJson (addAction "s3:GetObject"
                  (addAction "s3:GetObject" (PolicyStatement_new None)))) "Action"
  = JArray [JString "s3:GetObject"; JString "s3:GetObject"].
Proof. reflexivity. Qed.

(** C6, amended.  Actions and resources are emitted as they were added,
    repeated elements included, in insertion order: whatever calls were
    made on a fresh statement, the emitted [Action] stands for the sequence
    of actions those calls added, and [Resource] for the resources. *)
Theorem actions_resources_emitted_as_added
  (eff : option PolicyStatementEffect) (calls : list BuilderCall) :
  emitted (prop (toJson (build calls (PolicyStatement_new eff))) "Action")
  = map JString (actions_added calls)
  /\ emitted (prop (toJson (build calls (PolicyStatement_new eff))) "Resource")
     = map JString (resources_added calls).
Proof.
  split.
  - rewrite prop_Action, action_build. cbn [PolicyStatement_new action app].
    apply emitted_norm_strings.
  - rewrite prop_Resource, resource_build. cbn [PolicyStatement_new resource app].
    apply emitted_norm_strings.
Qed.

(* ================================================================= *)
(** ** The effect of a statement *)

(** C10.  A statement created with no effect has effect [Allow], and
    whatever effect it was created with and whatever builder calls were
    made on it, [toJson] emits an [Effect] field: it is ["Allow"] or
    ["Deny"], never absent. *)
Theorem effect_always_emitted
  (eff : option PolicyStatementEffect) (calls : list BuilderCall) :
  effect (PolicyStatement_new None) = Some Allow
  /\ prop (toJson (PolicyStatement_new None)) "Effect" = JString "Allow"
  /\ (exists e,
         prop (toJson (build calls (PolicyStatement_new eff))) "Effect"
         = JString (PolicyStatementEffect_value e))
  /\ prop (toJson (build calls (PolicyStatement_new eff))) "Effect" <> JUndefined.
Proof.
  assert (H : effect (build calls (PolicyStatement_new eff)) <> None)
    by (apply effect_build; discriminate).
  assert (E : prop (toJson (build calls (PolicyStatement_new eff))) "Effect"
              = match effect (build calls (PolicyStatement_new eff)) with
                | Some e => JString (PolicyStatementEffect_value e)
                | None => JUndefined
                end).
  { cbn [toJson prop Obj.get]. simpl.
    now destruct (effect (build calls (PolicyStatement_new eff))) as [[]|]. }
  repeat split.
  - destruct (effect (build calls (PolicyStatement_new eff))) as [e|]; [|contradiction].
    exists e. exact E.
  - rewrite E.
    destruct (effect (build calls (PolicyStatement_new eff))); [discriminate|contradiction].
Qed.

(* ================================================================= *)
(** ** Further properties of the statement *)

(** [hasPrincipal] is true exactly when [toJson] emits a [Principal]
    field, be it the wildcard, an object with keys, or the empty object. *)
Theorem hasPrincipal_iff_emitted (s : PolicyStatement) :
  hasPrincipal s = true <-> prop (toJson s) "Principal" <> JUndefined.
Proof.
  rewrite prop_Principal. unfold hasPrincipal.
  destruct (principal s) as [|[k vs] p] eqn:E.
  - simpl. split; [discriminate | intros H; now contradiction H].
  - rewrite normPrincipal_cases by discriminate.
    split; [|reflexivity]. intros _. now destruct (_ && _).
Qed.

(** On a statement made by builder calls, [hasResource] is true exactly
    when [toJson] emits a [Resource] field. *)
Theorem hasResource_iff_emitted
  (eff : option PolicyStatementEffect) (calls : list BuilderCall) :
  hasResource (build calls (PolicyStatement_new eff)) = true
  <-> prop (toJson (build calls (PolicyStatement_new eff))) "Resource" <> JUndefined.
Proof.
  rewrite prop_Resource. unfold hasResource. rewrite resource_build.
  cbn [PolicyStatement_new resource app].
  destruct (resources_added calls) as [|a [|b l]]; simpl.
  - split; [discriminate | intros H; now contradiction H].
  - split; [discriminate | reflexivity].
  - split; [discriminate | reflexivity].
Qed.

Lemma effect_call_eq c s :
  effect (call c s)
  = match c with
    | CallAllow => Some Allow
    | CallDeny => Some Deny
    | _ => effect s
    end.
Proof.
  destruct c; simpl; try reflexivity.
  - unfold addActions. now apply fold_left_preserves.
  - unfold addPrincipal. now rewrite addConditions_effect.
  - unfold addResources. now apply fold_left_preserves.
  - apply addConditions_effect.
Qed.

Lemma effect_build_eq calls s e :
  effect s = Some e -> effect (build calls s) = Some (effect_after calls e).
Proof.
  unfold build, effect_after. revert s e.
  induction calls as [|c calls IH]; intros s e H; cbn [fold_left].
  - assumption.
  - apply IH. rewrite effect_call_eq. now destruct c.
Qed.

(** The emitted [Effect] is that of the last [allow] or [deny] call, and
    the one the statement was created with when there is none. *)
Theorem effect_last_call_wins
  (eff : option PolicyStatementEffect) (calls : list BuilderCall) :
  prop (toJson (build calls (PolicyStatement_new eff))) "Effect"
  = JString (PolicyStatementEffect_value
               (effect_after calls (match eff with Some e => e | None => Allow end))).
Proof.
  assert (E : effect (build calls (PolicyStatement_new eff))
              = Some (effect_after calls (match eff with Some e => e | None => Allow end)))
    by now apply effect_build_eq.
  cbn [toJson prop Obj.get]. simpl. rewrite E.
  now destruct (effect_after calls _).
Qed.

Lemma addConditions_sid c s : sid (addConditions c s) = sid s.
Proof. unfold addConditions. now apply fold_left_preserves. Qed.

Lemma sid_call_eq c s :
  sid (call c s) = match c with CallDescribe d => JString d | _ => sid s end.
Proof.
  destruct c; simpl; try reflexivity.
  - unfold addActions. now apply fold_left_preserves.
  - unfold addPrincipal. now rewrite addConditions_sid.
  - unfold addResources. now apply fold_left_preserves.
  - apply addConditions_sid.
Qed.

Lemma sid_build_eq calls s :
  sid (build calls s)
  = fold_left (fun v c => match c with CallDescribe d => JString d | _ => v end)
      calls (sid s).
Proof.
  unfold build. revert s. induction calls as [|c calls IH]; intros s; cbn [fold_left].
  - reflexivity.
  - rewrite IH, sid_call_eq. now destruct c.
Qed.

Lemma sid_fold_shape calls v :
  (v = JUndefined \/ exists d, v = JString d) ->
  fold_left (fun v c => match c with CallDescribe d => JString d | _ => v end) calls v
  = JUndefined
  \/ exists d,
      fold_left (fun v c => match c with CallDescribe d => JString d | _ => v end) calls v
      = JString d.
Proof.
  revert v. induction calls as [|c calls IH]; intros v Hv; cbn [fold_left].
  - exact Hv.
  - apply IH. destruct c; try exact Hv. right. now eexists.
Qed.

(** The emitted [Sid] is the argument of the last [describe] call, the
    empty string included, and is absent when there was no such call. *)
Theorem sid_last_describe_wins
  (eff : option PolicyStatementEffect) (calls : list BuilderCall) :
  prop (toJson (build calls (PolicyStatement_new eff))) "Sid" = sid_after calls.
Proof.
  assert (E : sid (build calls (PolicyStatement_new eff)) = sid_after calls)
    by apply sid_build_eq.
  cbn [toJson prop Obj.get]. simpl. rewrite E.
  unfold sid_after.
  destruct (sid_fold_shape calls JUndefined (or_introl eq_refl)) as [-> | [d ->]];
    reflexivity.
Qed.

Lemma set_set {V : Type} (o : list (string * V)) k v1 v2 :
  Obj.set (Obj.set o k v1) k v2 = Obj.set o k v2.
Proof.
  induction o as [|[k0 v0] o IH]; simpl.
  - now rewrite String.eqb_refl.
  - destruct (k0 =? k) eqn:E; simpl; rewrite E; [reflexivity | now rewrite IH].
Qed.

(** Two condition adds under one operator key leave the statement that
    the later add alone leaves: nothing of the earlier value remains. *)
Theorem addCondition_absorbs_earlier
  (s : PolicyStatement) (k : string) (v1 v2 : JsValue) :
  addCondition k v2 (addCondition k v1 s) = addCondition k v2 s.
Proof. unfold addCondition. cbn [condition]. now rewrite set_set. Qed.

(** A kept principal-type list under a tag other than [AWS] rules the
    wildcard collapse out: the principal is emitted as an object that
    holds the list's normal form under that tag. *)
Theorem normPrincipal_other_tag_no_collapse
  (s : PolicyStatement) (k : string) (v : JsValue) :
  k <> "AWS" ->
  normalizedEntry (principal s) k = Some v ->
  prop (toJson s) "Principal" = JObject (_normPrincipal_result (principal s))
  /\ prop (prop (toJson s) "Principal") k = v.
Proof.
  intros Hk Hv.
  pose proof (get_normPrincipal_result (principal s) k) as Hget. rewrite Hv in Hget.
  assert (Hne : principal s <> []).
  { intros E. rewrite E in Hv. discriminate. }
  assert (Hobj : prop (toJson s) "Principal" = JObject (_normPrincipal_result (principal s))).
  { rewrite prop_Principal, (normPrincipal_cases _ Hne).
    destruct (_ && _) eqn:C; [|reflexivity].
    apply collapse_iff in C. rewrite C in Hget. cbn [Obj.get] in Hget.
    destruct ("AWS" =? k) eqn:E; [|discriminate].
    apply String.eqb_eq in E. now contradiction Hk. }
  split; [exact Hobj|]. rewrite Hobj. cbn [prop]. now rewrite Hget.
Qed.

(** A wildcard under [Service] stays an object. *)
Lemma normPrincipal_other_tag_no_collapse_witness :
  prop (toJson (addPrincipal {| principalJson := [("Service", [JString "*"])];
                                conditions := [] |}
                             (PolicyStatement_new None))) "Principal"
  = JObject [("Service", JString "*")]
  /\ prop (prop (toJson (addPrincipal {| principalJson := [("Service", [JString "*"])];
                                         conditions := [] |}
                                      (PolicyStatement_new None))) "Principal") "Service"
     = JString "*".
Proof.
  apply (normPrincipal_other_tag_no_collapse
           (addPrincipal {| principalJson := [("Service", [JString "*"])];
                            conditions := [] |}
                         (PolicyStatement_new None))
           "Service" (JString "*")).
  - discriminate.
  - reflexivity.
Defined.

Lemma keys_set_new {V : Type} (o : list (string * V)) k v :
  ~ In k (Obj.keys o) -> Obj.keys (Obj.set o k v) = Obj.keys o ++ [k].
Proof.
  induction o as [|[k0 v0] o IH]; simpl; intros H.
  - reflexivity.
  - destruct (k0 =? k) eqn:E.
    + apply String.eqb_eq in E. exfalso. apply H. now left.
    + simpl. rewrite IH; [reflexivity|]. intros Hin. apply H. now right.
Qed.

Lemma normPrincipal_result_keys principal ks acc :
  NoDup ks ->
  (forall k, In k ks -> ~ In k (Obj.keys acc)) ->
  Obj.keys
    (fold_left
       (fun result key =>
          let normVal :=
            _norm (match Obj.get principal key with
                   | Some vs => JArray vs
                   | None => JUndefined
                   end) in
          if truthy normVal then Obj.set result key normVal else result)
       ks acc)
  = Obj.keys acc
    ++ filter (fun k => match normalizedEntry principal k with
                        | Some _ => true
                        | None => false
                        end) ks.
Proof.
  revert acc. induction ks as [|k0 ks IH]; intros acc Hnd Hfresh; cbn [fold_left filter].
  - now rewrite app_nil_r.
  - inversion Hnd as [|? ? Hk0 Hnd']; subst.
    assert (Hentry : normalizedEntry principal k0
                     = if truthy (_norm (match Obj.get principal k0 with
                                         | Some vs => JArray vs
                                         | None => JUndefined
                                         end))
                       then Some (_norm (match Obj.get principal k0 with
                                         | Some vs => JArray vs
                                         | None => JUndefined
                                         end))
                       else None).
    { unfold normalizedEntry. now destruct (Obj.get principal k0). }
    rewrite Hentry. cbv zeta.
    destruct (truthy _) eqn:T.
    + rewrite IH; [|assumption|].
      * rewrite keys_set_new by (apply Hfresh; now left).
        now rewrite <- app_assoc.
      * intros k Hin Hin'. rewrite keys_set_new in Hin' by (apply Hfresh; now left).
        apply in_app_or in Hin' as [Hin'|[->|[]]].
        -- apply (Hfresh k); [now right | assumption].
        -- contradiction.
    + apply IH; [assumption|]. intros k Hin. apply Hfresh. now right.
Qed.

(** The keys of the emitted principal object follow the order in which
    the tags entered the principal map, the tags whose lists are dropped
    left out. *)
Theorem normPrincipal_key_order (s : PolicyStatement) :
  NoDup (Obj.keys (principal s)) ->
  Obj.keys (_normPrincipal_result (principal s)) = keptKeys (principal s).
Proof.
  intros Hnd. unfold _normPrincipal_result, keptKeys.
  now rewrite normPrincipal_result_keys.
Qed.

Lemma normPrincipal_key_order_witness :
  Obj.keys (_normPrincipal_result
              [("Service", [JString "sns.amazonaws.com"]);
               ("Federated", []);
               ("AWS", [JString "arn:aws:iam::111111111111:root";
                        JString "arn:aws:iam::222222222222:root"])])
  = ["Service"; "AWS"].
Proof.
  apply (normPrincipal_key_order
           {| action := [];
              principal :=
                [("Service", [JString "sns.amazonaws.com"]);
                 ("Federated", []);
                 ("AWS", [JString "arn:aws:iam::111111111111:root";
                          JString "arn:aws:iam::222222222222:root"])];
              resource := [];
              condition := [];
              effect := Some Allow;
              sid := JUndefined |}).
  simpl. repeat constructor; simpl; intuition discriminate.
Defined.

(* ================================================================= *)
(** ** Further properties of the document *)

Lemma statements_not_empty d : statements d <> [] -> isEmpty d = false.
Proof. unfold isEmpty. now destruct (statements d). Qed.

(** With at least one statement added and a base document whose
    [Statement] is an array, absent or falsy, [resolve] returns an object:
    its [Statement] is the base document's statements followed by the
    added statements as serialised, in the order added; its [Version] is
    the base document's when that is truthy and ["2012-10-17"] otherwise;
    every other property of the base document is kept. *)
Theorem PolicyDocument_resolve_with_statements
  (Token_toString : PolicyStatement -> string)
  (d : PolicyDocument) (fromBase : list JsValue) :
  statements d <> [] ->
  baseStatements (baseDocument d) = Some fromBase ->
  exists doc,
    PolicyDocument_resolve Token_toString d = Ok (JObject doc)
    /\ Obj.get doc "Statement"
       = Some (JArray (fromBase ++ map toJson (statements d)))
    /\ Obj.get doc "Version" = Some (baseVersion (baseDocument d))
    /\ forall k, k <> "Statement" -> k <> "Version" ->
                 Obj.get doc k = Msk.opt_chain (baseDocument d) (fun o => Obj.get o k).
Proof.
  intros Hne Hbase. unfold PolicyDocument_resolve.
  rewrite (statements_not_empty d Hne).
  set (doc0 := match baseDocument d with Some o => o | None => [] end).
  assert (Hdoc0 : forall k, Obj.get doc0 k
                            = Msk.opt_chain (baseDocument d) (fun o => Obj.get o k)).
  { intros k. unfold doc0. now destruct (baseDocument d). }
  assert (Hst : js_or (prop (JObject doc0) "Statement") (JArray []) = JArray fromBase).
  { cbn [prop]. rewrite Hdoc0. unfold baseStatements in Hbase.
    destruct (baseDocument d) as [o|]; cbn [Msk.opt_chain].
    - destruct (Obj.get o "Statement") as [v|].
      + destruct v; cbn in Hbase |- *; try congruence.
        * destruct b; [discriminate | cbn; congruence].
        * unfold js_or. cbn [truthy]. destruct (s =? ""); cbn in Hbase |- *; congruence.
      + cbn. congruence.
    - cbn. congruence. }
  rewrite Hst.
  set (doc1 := Obj.set doc0 "Statement" (JArray fromBase)).
  assert (Hver : js_or (prop (JObject doc1) "Version") (JString "2012-10-17")
                 = baseVersion (baseDocument d)).
  { cbn [prop]. unfold doc1. rewrite get_set. cbn [String.eqb Ascii.eqb Bool.eqb].
    rewrite Hdoc0. unfold baseVersion, js_or.
    destruct (Msk.opt_chain (baseDocument d) (fun o => Obj.get o "Version")) as [v|];
      reflexivity. }
  rewrite Hver.
  set (doc2 := Obj.set doc1 "Version" (baseVersion (baseDocument d))).
  assert (H2 : prop (JObject doc2) "Statement" = JArray fromBase).
  { cbn [prop]. unfold doc2, doc1. rewrite !get_set. reflexivity. }
  rewrite H2. eexists. split; [reflexivity|].
  split; [|split].
  - apply get_set_same.
  - unfold doc2. rewrite !get_set. reflexivity.
  - intros k Hs Hv. unfold doc2, doc1. rewrite !get_set.
    apply String.eqb_neq in Hs, Hv.
    rewrite (String.eqb_sym "Statement" k), (String.eqb_sym "Version" k), Hs, Hv.
    apply Hdoc0.
Qed.

(** A base document with one statement, a version of its own and an
    [Id], and one statement added. *)
Lemma PolicyDocument_resolve_with_statements_witness :
  exists doc,
    PolicyDocument_resolve exampleTokenString
      (addStatement (addAllResources (addAction "s3:GetObject" (PolicyStatement_new None)))
         (PolicyDocument_new
            (Some [("Id", JString "base");
                   ("Version", JString "2008-10-17");
                   ("Statement", JArray [JString "existing"])])))
    = Ok (JObject doc)
    /\ Obj.get doc "Statement"
       = Some (JArray [JString "existing";
                       toJson (addAllResources
                                 (addAction "s3:GetObject" (PolicyStatement_new None)))])
    /\ Obj.get doc "Version" = Some (JString "2008-10-17")
    /\ forall k, k <> "Statement" -> k <> "Version" ->
                 Obj.get doc k
                 = Obj.get [("Id", JString "base");
                            ("Version", JString "2008-10-17");
                            ("Statement", JArray [JString "existing"])] k.
Proof.
  apply (PolicyDocument_resolve_with_statements exampleTokenString
           (addStatement (addAllResources (addAction "s3:GetObject" (PolicyStatement_new None)))
              (PolicyDocument_new
                 (Some [("Id", JString "base");
                        ("Version", JString "2008-10-17");
                        ("Statement", JArray [JString "existing"])])))
           [JString "existing"]).
  - discriminate.
  - reflexivity.
Defined.

(** [resolve] returns [undefined] exactly when no statement was added,
    that is when [statementCount] is 0. *)
Theorem PolicyDocument_resolve_undefined_iff
  (Token_toString : PolicyStatement -> string) (d : PolicyDocument) :
  PolicyDocument_resolve Token_toString d = Ok JUndefined <-> statementCount d = 0.
Proof.
  unfold PolicyDocument_resolve, isEmpty, statementCount.
  destruct (statements d) as [|st sts]; cbn [length Nat.eqb].
  - split; reflexivity.
  - split; [|discriminate].
    destruct (prop _ "Statement"); discriminate.
Qed.

(* ================================================================= *)
(** ** The Cluster construct *)

Import Msk.

(** *** Running the checks *)

Lemma when_addError_run c message errors :
  when c (addError message) errors = Ok (tt, errors ++ (if c then [message] else [])).
Proof. destruct c; cbn; [reflexivity | now rewrite app_nil_r]. Qed.

Lemma output_when_addError c message :
  output (when c (addError message)) = if c then [message] else [].
Proof. now destruct c. Qed.

Lemma checkSubnets_run props errors :
  checkSubnets props errors = Ok (tt, errors ++ output (checkSubnets props)).
Proof. unfold checkSubnets. now rewrite output_when_addError, when_addError_run. Qed.

Lemma checkClusterName_run isUnresolved props errors :
  checkClusterName isUnresolved props errors
  = Ok (tt, errors ++ output (checkClusterName isUnresolved props)).
Proof. unfold checkClusterName. now rewrite output_when_addError, when_addError_run. Qed.

Lemma checkOnlyOneAuth_run props errors :
  checkOnlyOneAuth props errors = Ok (tt, errors ++ output (checkOnlyOneAuth props)).
Proof. unfold checkOnlyOneAuth. now rewrite output_when_addError, when_addError_run. Qed.

Lemma checkAuthEncryption_run props errors :
  checkAuthEncryption props errors = Ok (tt, errors ++ output (checkAuthEncryption props)).
Proof.
  unfold checkAuthEncryption, output.
  destruct (_ && _); [reflexivity|].
  destruct (_ && _); [reflexivity|].
  cbn. now rewrite app_nil_r.
Qed.

Lemma checkVolumeSize_run props errors :
  checkVolumeSize props errors = Ok (tt, errors ++ output (checkVolumeSize props)).
Proof. unfold checkVolumeSize. now rewrite output_when_addError, when_addError_run. Qed.

Lemma Cluster_constructor_run isUnresolved props errors :
  exists cluster,
    Cluster_constructor isUnresolved props errors
    = Ok (cluster,
          errors ++ output (checkSubnets props)
                 ++ output (checkClusterName isUnresolved props)
                 ++ output (checkOnlyOneAuth props)
                 ++ output (checkAuthEncryption props)
                 ++ output (checkVolumeSize props))
    /\ connections (base cluster) = Ok (newConnections props).
Proof.
  unfold Cluster_constructor, bind.
  rewrite checkSubnets_run, checkClusterName_run, checkOnlyOneAuth_run,
    checkAuthEncryption_run, checkVolumeSize_run.
  cbn. eexists. split.
  - rewrite <- !app_assoc. reflexivity.
  - reflexivity.
Qed.

Lemma Cluster_constructor_part_000_run isUnresolved props errors :
  exists cluster,
    Cluster_constructor_part_000 isUnresolved props errors
    = Ok (cluster,
          errors ++ output (checkSubnets props)
                 ++ output (checkClusterName isUnresolved props)
                 ++ output (checkAuthEncryption props)
                 ++ output (checkVolumeSize props))
    /\ connections (base cluster) = Ok (newConnections props).
Proof.
  unfold Cluster_constructor_part_000, bind.
  rewrite checkSubnets_run, checkClusterName_run,
    checkAuthEncryption_run, checkVolumeSize_run.
  cbn. eexists. split.
  - rewrite <- !app_assoc. reflexivity.
  - reflexivity.
Qed.

Lemma diagnostics_Cluster_constructor isUnresolved props :
  diagnostics (Cluster_constructor isUnresolved props)
  = output (checkSubnets props)
    ++ output (checkClusterName isUnresolved props)
    ++ output (checkOnlyOneAuth props)
    ++ output (checkAuthEncryption props)
    ++ output (checkVolumeSize props).
Proof.
  unfold diagnostics.
  destruct (Cluster_constructor_run isUnresolved props []) as [cluster [-> _]].
  reflexivity.
Qed.

Lemma diagnostics_Cluster_constructor_part_000 isUnresolved props :
  diagnostics (Cluster_constructor_part_000 isUnresolved props)
  = output (checkSubnets props)
    ++ output (checkClusterName isUnresolved props)
    ++ output (checkAuthEncryption props)
    ++ output (checkVolumeSize props).
Proof.
  unfold diagnostics.
  destruct (Cluster_constructor_part_000_run isUnresolved props []) as [cluster [-> _]].
  reflexivity.
Qed.

Lemma count_app message l1 l2 : count message (l1 ++ l2) = count message l1 + count message l2.
Proof. unfold count. now rewrite filter_app, length_app. Qed.

Lemma count_output_when c message message' :
  count message (output (when c (addError message')))
  = if c && (message =? message') then 1 else 0.
Proof.
  rewrite output_when_addError. unfold count.
  destruct c; [|reflexivity]. cbn. now destruct (message =? message').
Qed.

Lemma In_output_when c message message' :
  In message (output (when c (addError message'))) <-> c = true /\ message' = message.
Proof.
  rewrite output_when_addError. destruct c; simpl.
  - intuition.
  - intuition discriminate.
Qed.

Lemma output_checkAuthEncryption props :
  output (checkAuthEncryption props)
  = if clientBrokerIs props PLAINTEXT
       && (truthy_array (tlsCertificateAuthorityArns props)
           || truthy_bool (saslScram props))
    then [authNeedsTlsMessage]
    else if clientBrokerIs props TLS_PLAINTEXT && truthy_bool (saslScram props)
         then [scramNeedsTlsOnlyMessage]
         else [].
Proof.
  unfold checkAuthEncryption, output.
  destruct (_ && _); [reflexivity|].
  now destruct (_ && _).
Qed.

(** The checks other than the one on the cluster name say nothing about
    the name. *)
Lemma name_free_checks props :
  filter isClusterNameDiagnostic (output (checkSubnets props)) = []
  /\ filter isClusterNameDiagnostic (output (checkOnlyOneAuth props)) = []
  /\ filter isClusterNameDiagnostic (output (checkAuthEncryption props)) = []
  /\ filter isClusterNameDiagnostic (output (checkVolumeSize props)) = [].
Proof.
  repeat split.
  - unfold checkSubnets. rewrite output_when_addError. now destruct (_ <? _)%nat.
  - unfold checkOnlyOneAuth. rewrite output_when_addError. now destruct (_ && _).
  - rewrite output_checkAuthEncryption.
    destruct (_ && _); [reflexivity|]. now destruct (_ && _).
  - unfold checkVolumeSize. rewrite output_when_addError.
    now destruct (match propsVolumeSize props with Some _ => _ | None => _ end).
Qed.

(** The name check speaks exactly when the name is resolved, is not
    alphanumeric, and is longer than 64. *)
Lemma output_checkClusterName isUnresolved props :
  output (checkClusterName isUnresolved props)
  = if negb (isUnresolved (clusterName props))
       && negb (test_alphanumeric (clusterName props))
       && (64 <? String.length (clusterName props))%nat
    then [clusterNameMessage (clusterName props)]
    else [].
Proof. unfold checkClusterName. apply output_when_addError. Qed.

Lemma name_diagnostics_Cluster_constructor isUnresolved props :
  filter isClusterNameDiagnostic (diagnostics (Cluster_constructor isUnresolved props))
  = filter isClusterNameDiagnostic (output (checkClusterName isUnresolved props))
  /\ filter isClusterNameDiagnostic
       (diagnostics (Cluster_constructor_part_000 isUnresolved props))
     = filter isClusterNameDiagnostic (output (checkClusterName isUnresolved props)).
Proof.
  rewrite diagnostics_Cluster_constructor, diagnostics_Cluster_constructor_part_000.
  destruct (name_free_checks props) as (H1 & H2 & H3 & H4).
  rewrite !filter_app, H1, H2, H3, H4, !app_nil_r. now split.
Qed.

(** C2.  A resolved cluster name of at most 64 characters that is not
    alphanumeric draws no diagnostic about the name from either revision
    of the constructor, although the message of the check demands
    alphanumeric characters only: the check asks for all three of
    resolved, not alphanumeric, and longer than 64. *)
Theorem Cluster_short_bad_name_no_diagnostic
  (isUnresolved : string -> bool) (props : ClusterProps) :
  isUnresolved (clusterName props) = false ->
  test_alphanumeric (clusterName props) = false ->
  String.length (clusterName props) <= 64 ->
  filter isClusterNameDiagnostic (diagnostics (Cluster_constructor isUnresolved props)) = []
  /\ filter isClusterNameDiagnostic
       (diagnostics (Cluster_constructor_part_000 isUnresolved props)) = [].
Proof.
  intros Hres Hbad Hlen.
  destruct (name_diagnostics_Cluster_constructor isUnresolved props) as [-> ->].
  rewrite output_checkClusterName.
  apply Nat.ltb_ge in Hlen. rewrite Hlen, andb_false_r. now split.
Qed.

(** The other half of C2 holds: an unresolved name draws no diagnostic,
    whatever it contains. *)
Lemma Cluster_unresolved_name_no_diagnostic
  (isUnresolved : string -> bool) (props : ClusterProps) :
  isUnresolved (clusterName props) = true ->
  filter isClusterNameDiagnostic (diagnostics (Cluster_constructor isUnresolved props)) = []
  /\ filter isClusterNameDiagnostic
       (diagnostics (Cluster_constructor_part_000 isUnresolved props)) = [].
Proof.
  intros Hres.
  destruct (name_diagnostics_Cluster_constructor isUnresolved props) as [-> ->].
  rewrite output_checkClusterName, Hres. now split.
Qed.

(** The name ["bad name!"], which holds a space and an exclamation mark. *)
Lemma Cluster_short_bad_name_no_diagnostic_witness :
  filter isClusterNameDiagnostic
    (diagnostics (Cluster_constructor hasTokenMarker
                    (exampleProps "bad name!" None None None))) = []
  /\ filter isClusterNameDiagnostic
       (diagnostics (Cluster_constructor_part_000 hasTokenMarker
                       (exampleProps "bad name!" None None None))) = [].
Proof.
  apply (Cluster_short_bad_name_no_diagnostic hasTokenMarker
           (exampleProps "bad name!" None None None)).
  - reflexivity.
  - reflexivity.
  - simpl. lia.
Defined.

Example Cluster_bad_name_diagnostics :
  diagnostics (Cluster_constructor hasTokenMarker
                 (exampleProps "bad name!" None None None)) = [].
Proof. reflexivity. Qed.

(** A name draws the diagnostic once it is also longer than 64. *)
Example Cluster_long_bad_name_diagnostics :
  diagnostics
    (Cluster_constructor hasTokenMarker
       (exampleProps
          "bad name! bad name! bad name! bad name! bad name! bad name! bad name!"
          None None None))
  = [clusterNameMessage
       "bad name! bad name! bad name! bad name! bad name! bad name! bad name!"].
Proof. reflexivity. Qed.

(* ================================================================= *)
(** ** Authentication and client-broker encryption *)

Lemma count_authNeedsTls_others isUnresolved props :
  count authNeedsTlsMessage (output (checkSubnets props)) = 0
  /\ count authNeedsTlsMessage (output (checkClusterName isUnresolved props)) = 0
  /\ count authNeedsTlsMessage (output (checkOnlyOneAuth props)) = 0
  /\ count authNeedsTlsMessage (output (checkVolumeSize props)) = 0.
Proof.
  unfold checkSubnets, checkClusterName, checkOnlyOneAuth, checkVolumeSize.
  rewrite !count_output_when.
  repeat split; match goal with |- (if ?c && _ then _ else _) = _ => now destruct c end.
Qed.

Lemma count_scramNeedsTlsOnly_others isUnresolved props :
  count scramNeedsTlsOnlyMessage (output (checkSubnets props)) = 0
  /\ count scramNeedsTlsOnlyMessage (output (checkClusterName isUnresolved props)) = 0
  /\ count scramNeedsTlsOnlyMessage (output (checkOnlyOneAuth props)) = 0
  /\ count scramNeedsTlsOnlyMessage (output (checkVolumeSize props)) = 0.
Proof.
  unfold checkSubnets, checkClusterName, checkOnlyOneAuth, checkVolumeSize.
  rewrite !count_output_when.
  repeat split; match goal with |- (if ?c && _ then _ else _) = _ => now destruct c end.
Qed.

(** Among the diagnostics of either revision, the two messages on
    authentication and encryption occur as often as in the output of the
    check that compares them. *)
Lemma count_auth_messages isUnresolved props :
  forall message,
    message = authNeedsTlsMessage \/ message = scramNeedsTlsOnlyMessage ->
    count message (diagnostics (Cluster_constructor isUnresolved props))
    = count message (output (checkAuthEncryption props))
    /\ count message (diagnostics (Cluster_constructor_part_000 isUnresolved props))
       = count message (output (checkAuthEncryption props)).
Proof.
  intros message Hm.
  rewrite diagnostics_Cluster_constructor, diagnostics_Cluster_constructor_part_000.
  rewrite !count_app.
  destruct (count_authNeedsTls_others isUnresolved props) as (A1 & A2 & A3 & A4).
  destruct (count_scramNeedsTlsOnly_others isUnresolved props) as (B1 & B2 & B3 & B4).
  destruct Hm as [-> | ->].
  - rewrite A1, A2, A3, A4. split; lia.
  - rewrite B1, B2, B3, B4. split; lia.
Qed.

(** C7, as stated, fails: a SASL block that leaves SCRAM off is a
    client-authentication block, and with plaintext traffic it draws no
    diagnostic. *)
Lemma authentication_block_counterexample :
  ~ (forall (isUnresolved : string -> bool) (props : ClusterProps),
        encryptionInTransit props ?. clientBroker = Some PLAINTEXT ->
        authenticationBlockSet props ->
        count authNeedsTlsMessage (diagnostics (Cluster_constructor isUnresolved props)) = 1).
Proof.
  intros H.
  specialize (H hasTokenMarker
                (exampleProps "kafka" (Some (saslAuthentication false)) (Some PLAINTEXT) None)
                eq_refl).
  assert (Hset : authenticationBlockSet
                   (exampleProps "kafka" (Some (saslAuthentication false))
                      (Some PLAINTEXT) None)).
  { right. discriminate. }
  specialize (H Hset). discriminate H.
Qed.

(** C7, amended.  With plaintext client-broker traffic and a
    client-authentication mechanism switched on (certificate authorities
    listed for TLS, or SCRAM true), the diagnostics of either revision hold
    the message on authentication without TLS exactly once, and the
    message on SCRAM with mixed traffic not at all. *)
Theorem authentication_needs_tls
  (isUnresolved : string -> bool) (props : ClusterProps) :
  encryptionInTransit props ?. clientBroker = Some PLAINTEXT ->
  authenticationEnabled props ->
  count authNeedsTlsMessage (diagnostics (Cluster_constructor isUnresolved props)) = 1
  /\ count scramNeedsTlsOnlyMessage (diagnostics (Cluster_constructor isUnresolved props)) = 0
  /\ count authNeedsTlsMessage
       (diagnostics (Cluster_constructor_part_000 isUnresolved props)) = 1
  /\ count scramNeedsTlsOnlyMessage
       (diagnostics (Cluster_constructor_part_000 isUnresolved props)) = 0.
Proof.
  intros Hmode Hauth.
  destruct (count_auth_messages isUnresolved props authNeedsTlsMessage (or_introl eq_refl))
    as [-> ->].
  destruct (count_auth_messages isUnresolved props scramNeedsTlsOnlyMessage
              (or_intror eq_refl)) as [-> ->].
  rewrite output_checkAuthEncryption.
  assert (Hplain : clientBrokerIs props PLAINTEXT = true).
  { unfold clientBrokerIs. now rewrite Hmode. }
  assert (Hon : truthy_array (tlsCertificateAuthorityArns props)
                || truthy_bool (saslScram props) = true).
  { destruct Hauth as [Htls | Hscram].
    - destruct (tlsCertificateAuthorityArns props); [reflexivity | contradiction].
    - rewrite Hscram. apply orb_true_r. }
  rewrite Hplain, Hon. cbn. auto.
Qed.

(** Plaintext traffic with SCRAM on, and with a certificate authority. *)
Lemma authentication_needs_tls_witness :
  (count authNeedsTlsMessage
     (diagnostics (Cluster_constructor hasTokenMarker
                     (exampleProps "kafka" (Some (saslAuthentication true))
                        (Some PLAINTEXT) None))) = 1
   /\ count scramNeedsTlsOnlyMessage
        (diagnostics (Cluster_constructor hasTokenMarker
                        (exampleProps "kafka" (Some (saslAuthentication true))
                           (Some PLAINTEXT) None))) = 0
   /\ count authNeedsTlsMessage
        (diagnostics (Cluster_constructor_part_000 hasTokenMarker
                        (exampleProps "kafka" (Some (saslAuthentication true))
                           (Some PLAINTEXT) None))) = 1
   /\ count scramNeedsTlsOnlyMessage
        (diagnostics (Cluster_constructor_part_000 hasTokenMarker
                        (exampleProps "kafka" (Some (saslAuthentication true))
                           (Some PLAINTEXT) None))) = 0).
Proof.
  apply (authentication_needs_tls hasTokenMarker
           (exampleProps "kafka" (Some (saslAuthentication true)) (Some PLAINTEXT) None)).
  - reflexivity.
  - right. reflexivity.
Defined.

(** Both mechanisms at once under plaintext traffic: cluster.ts adds the
    message that only one may be set, and the message on authentication
    without TLS still comes once. *)
Example authentication_both_plaintext :
  diagnostics
    (Cluster_constructor hasTokenMarker
       (exampleProps "kafka"
          (Some {| tls := Some {| certificateAuthorityArns := Some ["arn:aws:acm-pca:ca"] |};
                   sasl := Some {| scram := Some true; key := None |} |})
          (Some PLAINTEXT) None))
  = [onlyOneAuthMessage; authNeedsTlsMessage].
Proof. reflexivity. Qed.

(** A certificate authority under plaintext traffic. *)
Example authentication_tls_plaintext :
  diagnostics
    (Cluster_constructor_part_000 hasTokenMarker
       (exampleProps "kafka" (Some (tlsAuthentication ["arn:aws:acm-pca:ca"]))
          (Some PLAINTEXT) None))
  = [authNeedsTlsMessage].
Proof. reflexivity. Qed.

(** Mixed traffic with SCRAM draws the other message, and only that. *)
Example authentication_scram_mixed :
  diagnostics
    (Cluster_constructor hasTokenMarker
       (exampleProps "kafka" (Some (saslAuthentication true)) (Some TLS_PLAINTEXT) None))
  = [scramNeedsTlsOnlyMessage].
Proof. reflexivity. Qed.

(** A block that switches nothing on draws neither message. *)
Lemma authentication_off_no_diagnostic
  (isUnresolved : string -> bool) (props : ClusterProps) :
  tlsCertificateAuthorityArns props = None ->
  truthy_bool (saslScram props) = false ->
  count authNeedsTlsMessage (diagnostics (Cluster_constructor isUnresolved props)) = 0
  /\ count scramNeedsTlsOnlyMessage (diagnostics (Cluster_constructor isUnresolved props)) = 0.
Proof.
  intros Htls Hscram.
  destruct (count_auth_messages isUnresolved props authNeedsTlsMessage (or_introl eq_refl))
    as [-> _].
  destruct (count_auth_messages isUnresolved props scramNeedsTlsOnlyMessage
              (or_intror eq_refl)) as [-> _].
  rewrite output_checkAuthEncryption, Htls, Hscram.
  cbn. rewrite !andb_false_r. now split.
Qed.

(* ================================================================= *)
(** ** Storage volume size *)

Lemma volumeSizeMessage_others isUnresolved props :
  ~ In volumeSizeMessage (output (checkSubnets props))
  /\ ~ In volumeSizeMessage (output (checkClusterName isUnresolved props))
  /\ ~ In volumeSizeMessage (output (checkOnlyOneAuth props))
  /\ ~ In volumeSizeMessage (output (checkAuthEncryption props)).
Proof.
  repeat split.
  - unfold checkSubnets. rewrite In_output_when. intros [_ H]. discriminate H.
  - unfold checkClusterName. rewrite In_output_when. intros [_ H]. discriminate H.
  - unfold checkOnlyOneAuth. rewrite In_output_when. intros [_ H]. discriminate H.
  - rewrite output_checkAuthEncryption.
    destruct (_ && _); [intros [H|[]]; discriminate H|].
    destruct (_ && _); [intros [H|[]]; discriminate H|].
    intros [].
Qed.

Lemma In_volumeSizeMessage_checkVolumeSize props :
  In volumeSizeMessage (output (checkVolumeSize props))
  <-> exists v, propsVolumeSize props = Some v /\ (v < 1 \/ 16384 < v)%Z.
Proof.
  unfold checkVolumeSize. rewrite In_output_when.
  destruct (propsVolumeSize props) as [v|].
  - rewrite orb_true_iff, Z.ltb_lt, Z.gtb_ltb, Z.ltb_lt. split.
    + intros [H _]. exists v. now split.
    + intros [v' [E H]]. injection E as <-. now split.
  - split.
    + intros [H _]. discriminate H.
    + intros [v [E _]]. discriminate E.
Qed.

(** C8.  In either revision the diagnostic on the range 1-16384 is among
    the diagnostics exactly when a volume size is given and lies below 1 or
    above 16384; so 0 and 16385 draw it, and 1, 16384 and no size do not. *)
Theorem volumeSize_diagnostic (isUnresolved : string -> bool) (props : ClusterProps) :
  (In volumeSizeMessage (diagnostics (Cluster_constructor isUnresolved props))
   <-> exists v, propsVolumeSize props = Some v /\ (v < 1 \/ 16384 < v)%Z)
  /\ (In volumeSizeMessage (diagnostics (Cluster_constructor_part_000 isUnresolved props))
      <-> exists v, propsVolumeSize props = Some v /\ (v < 1 \/ 16384 < v)%Z).
Proof.
  rewrite diagnostics_Cluster_constructor, diagnostics_Cluster_constructor_part_000.
  rewrite !in_app_iff, In_volumeSizeMessage_checkVolumeSize.
  destruct (volumeSizeMessage_others isUnresolved props) as (H1 & H2 & H3 & H4).
  tauto.
Qed.

Example volumeSize_0 :
  diagnostics (Cluster_constructor hasTokenMarker (exampleProps "kafka" None None (Some 0%Z)))
  = [volumeSizeMessage].
Proof. reflexivity. Qed.

Example volumeSize_16385 :
  diagnostics (Cluster_constructor hasTokenMarker
                 (exampleProps "kafka" None None (Some 16385%Z)))
  = [volumeSizeMessage].
Proof. reflexivity. Qed.

Example volumeSize_1 :
  diagnostics (Cluster_constructor hasTokenMarker (exampleProps "kafka" None None (Some 1%Z)))
  = [].
Proof. reflexivity. Qed.

Example volumeSize_16384 :
  diagnostics (Cluster_constructor hasTokenMarker
                 (exampleProps "kafka" None None (Some 16384%Z)))
  = [].
Proof. reflexivity. Qed.

Example volumeSize_unspecified :
  diagnostics (Cluster_constructor hasTokenMarker (exampleProps "kafka" None None None))
  = [].
Proof. reflexivity. Qed.

(* ================================================================= *)
(** ** Connections *)

Lemma problems_outputs isUnresolved props :
  problems isUnresolved props
  = output (checkSubnets props)
    ++ output (checkClusterName isUnresolved props)
    ++ output (checkOnlyOneAuth props)
    ++ output (checkAuthEncryption props)
    ++ output (checkVolumeSize props)
  /\ problems_part_000 isUnresolved props
     = output (checkSubnets props)
       ++ output (checkClusterName isUnresolved props)
       ++ output (checkAuthEncryption props)
       ++ output (checkVolumeSize props).
Proof.
  assert (Hvol : output (checkVolumeSize props)
                 = match propsVolumeSize props with
                   | Some v => if (v <? 1)%Z || (16384 <? v)%Z then [volumeSizeMessage] else []
                   | None => []
                   end).
  { unfold checkVolumeSize. rewrite output_when_addError.
    destruct (propsVolumeSize props) as [v|]; [|reflexivity].
    now rewrite Z.gtb_ltb. }
  unfold problems, problems_part_000.
  rewrite output_checkClusterName, output_checkAuthEncryption, Hvol.
  unfold checkSubnets, checkOnlyOneAuth. rewrite !output_when_addError.
  split; reflexivity.
Qed.

(** With collaborators that all return, construction is the one studied
    above. *)
Lemma Cluster_constructor_allReturn isUnresolved props errors :
  MskThrows.Cluster_constructor isUnresolved MskThrows.allReturn props errors
  = Cluster_constructor isUnresolved props errors
  /\ MskThrows.Cluster_constructor_part_000 isUnresolved MskThrows.allReturn props errors
     = Cluster_constructor_part_000 isUnresolved props errors.
Proof.
  unfold MskThrows.Cluster_constructor, MskThrows.Cluster_constructor_part_000,
    Cluster_constructor, Cluster_constructor_part_000,
    MskThrows.makeConnections, MskThrows.makeSaslKey, newSaslKey, bind.
  rewrite !checkSubnets_run, !checkClusterName_run, !checkOnlyOneAuth_run,
    !checkAuthEncryption_run, !checkVolumeSize_run.
  destruct (securityGroups (brokerNodeGroupProps props)); cbn;
    rewrite !checkSubnets_run, !checkClusterName_run, !checkOnlyOneAuth_run,
      !checkAuthEncryption_run, !checkVolumeSize_run; cbn;
    destruct (_ && _); split; reflexivity.
Qed.

(** C9, as stated, fails: construction has hard failures of its own kind,
    since a throw of a collaborator ends it.  With a VPC that lacks the
    subnets asked for, [selectSubnets] throws and no cluster is made. *)
Lemma construction_aborts_counterexample :
  ~ (forall (env : MskThrows.Collaborators) (props : ClusterProps),
        exists cluster errors,
          MskThrows.Cluster_constructor hasTokenMarker env props [] = Ok (cluster, errors)).
Proof.
  intros H.
  destruct (H noSuchSubnets (exampleProps "kafka" None None None)) as [c [e Hrun]].
  discriminate Hrun.
Qed.

(** C9, amended.  Reading [connections] on a cluster imported with
    [fromClusterArn] throws.  In either revision, construction throws
    exactly when one of the collaborator calls it makes throws, with that
    call's message, whatever the configuration problems are; otherwise it
    returns a cluster, the annotations already present followed by one
    diagnostic for each configuration problem in the order of the checks,
    and reading [connections] on that cluster returns the connections the
    constructor made. *)
Theorem connections_only_own_throw
  (isUnresolved : string -> bool) (env : MskThrows.Collaborators)
  (clusterArn : string) (props : ClusterProps) (errors : list string) :
  connections (fromClusterArn clusterArn)
  = Throw "An imported Cluster cannot manage its security groups"
  /\ match firstThrow (callsMade env props) with
     | Some message =>
         MskThrows.Cluster_constructor isUnresolved env props errors = Throw message
         /\ MskThrows.Cluster_constructor_part_000 isUnresolved env props errors
            = Throw message
     | None =>
         (exists cluster,
             MskThrows.Cluster_constructor isUnresolved env props errors
             = Ok (cluster, errors ++ problems isUnresolved props)
             /\ connections (base cluster) = Ok (newConnections props))
         /\ (exists cluster,
                MskThrows.Cluster_constructor_part_000 isUnresolved env props errors
                = Ok (cluster, errors ++ problems_part_000 isUnresolved props)
                /\ connections (base cluster) = Ok (newConnections props))
     end.
Proof.
  split; [reflexivity|].
  destruct (problems_outputs isUnresolved props) as [-> ->].
  destruct env as [r s g k cf ap].
  unfold callsMade, MskThrows.Cluster_constructor, MskThrows.Cluster_constructor_part_000,
    MskThrows.makeConnections, MskThrows.makeSaslKey.
  cbn [MskThrows.throws_Resource MskThrows.throws_selectSubnets
       MskThrows.throws_SecurityGroup MskThrows.throws_Key
       MskThrows.throws_CfnCluster MskThrows.throws_applyRemovalPolicy firstThrow].
  destruct r as [m|]; [split; reflexivity|].
  destruct s as [m|]; [split; reflexivity|].
  unfold newSaslKey, bind, MskThrows.calling, ret, lift, connections.
  destruct (securityGroups (brokerNodeGroupProps props)) as [groups|];
    [|destruct g as [m|]; [split; reflexivity|]];
    cbn [firstThrow _connections];
    rewrite !checkSubnets_run, !checkClusterName_run, !checkOnlyOneAuth_run,
      !checkAuthEncryption_run, !checkVolumeSize_run;
    (destruct (_ && _);
     [destruct k as [m|]; [split; reflexivity|]|];
     (destruct cf as [m|]; [split; reflexivity|]);
     (destruct ap as [m|]; [split; reflexivity|]);
     cbn [firstThrow base _connections];
     split; eexists; (split; [rewrite <- !app_assoc; reflexivity | reflexivity])).
Qed.

(** A configuration with two problems and collaborators that return:
    both diagnostics are recorded and the cluster is made. *)
Example construction_accumulates :
  exists cluster,
    MskThrows.Cluster_constructor hasTokenMarker MskThrows.allReturn
      (exampleProps "kafka"
         (Some {| tls := Some {| certificateAuthorityArns := Some ["arn:aws:acm-pca:ca"] |};
                  sasl := Some {| scram := Some true; key := None |} |})
         (Some PLAINTEXT) (Some 0%Z))
      ["earlier annotation"]
    = Ok (cluster,
          ["earlier annotation"; onlyOneAuthMessage; authNeedsTlsMessage; volumeSizeMessage]).
Proof. eexists. cbv. reflexivity. Qed.

Example fromClusterArn_names :
  fromClusterArn "arn:aws:kafka:us-east-1:111111111111:cluster/orders/abc-1"
  = {| this_clusterArn :=
         Some (Lit "arn:aws:kafka:us-east-1:111111111111:cluster/orders/abc-1");
       this_clusterName := Some (Lit "orders");
       _connections := None |}.
Proof. reflexivity. Qed.

(* ================================================================= *)
(** ** Further properties of the Cluster construct *)

Lemma Cluster_constructor_value isUnresolved props errors c e :
  Cluster_constructor isUnresolved props errors = Ok (c, e) ->
  resource c = newResource props (newConnections props)
  /\ _connections (base c) = Some (newConnections props)
  /\ saslScramAuthenticationKey c = None
  /\ e = errors ++ diagnostics (Cluster_constructor isUnresolved props).
Proof.
  rewrite diagnostics_Cluster_constructor.
  unfold Cluster_constructor, bind.
  rewrite checkSubnets_run, checkClusterName_run, checkOnlyOneAuth_run,
    checkAuthEncryption_run, checkVolumeSize_run.
  cbn. intros H. injection H as <- <-.
  repeat split. now rewrite <- !app_assoc.
Qed.

Lemma Cluster_constructor_part_000_value isUnresolved props errors c e :
  Cluster_constructor_part_000 isUnresolved props errors = Ok (c, e) ->
  resource c = newResource props (newConnections props)
  /\ _connections (base c) = Some (newConnections props)
  /\ saslScramAuthenticationKey c = newSaslKey props
  /\ e = errors ++ diagnostics (Cluster_constructor_part_000 isUnresolved props).
Proof.
  rewrite diagnostics_Cluster_constructor_part_000.
  unfold Cluster_constructor_part_000, bind.
  rewrite checkSubnets_run, checkClusterName_run,
    checkAuthEncryption_run, checkVolumeSize_run.
  cbn. intros H. injection H as <- <-.
  repeat split. now rewrite <- !app_assoc.
Qed.

Lemma filter_output_when (p : string -> bool) c message :
  filter p (output (when c (addError message)))
  = if c && p message then [message] else [].
Proof.
  rewrite output_when_addError. destruct c; [|reflexivity].
  cbn. now destruct (p message).
Qed.

(** *** The number of subnets *)

(** In either revision the diagnostic on subnets is drawn exactly when the
    selection holds fewer than two subnets, once, and it states their
    number. *)
Theorem subnets_diagnostic (isUnresolved : string -> bool) (props : ClusterProps) :
  filter isSubnetsDiagnostic (diagnostics (Cluster_constructor isUnresolved props))
  = (if (subnetCount props <? 2)%nat then [subnetsMessage (subnetCount props)] else [])
  /\ filter isSubnetsDiagnostic
       (diagnostics (Cluster_constructor_part_000 isUnresolved props))
     = (if (subnetCount props <? 2)%nat then [subnetsMessage (subnetCount props)] else []).
Proof.
  rewrite diagnostics_Cluster_constructor, diagnostics_Cluster_constructor_part_000.
  rewrite !filter_app.
  assert (H1 : filter isSubnetsDiagnostic (output (checkSubnets props))
               = if (subnetCount props <? 2)%nat
                 then [subnetsMessage (subnetCount props)] else []).
  { unfold checkSubnets. rewrite filter_output_when. fold (subnetCount props).
    replace (isSubnetsDiagnostic (subnetsMessage (subnetCount props))) with true
      by (unfold isSubnetsDiagnostic, subnetsMessage; cbn;
          now destruct (nat_to_string (subnetCount props))).
    now rewrite andb_true_r. }
  assert (H2 : filter isSubnetsDiagnostic (output (checkClusterName isUnresolved props)) = []).
  { unfold checkClusterName. rewrite filter_output_when.
    match goal with |- (if ?c && _ then _ else _) = _ => now destruct c end. }
  assert (H3 : filter isSubnetsDiagnostic (output (checkOnlyOneAuth props)) = []).
  { unfold checkOnlyOneAuth. rewrite filter_output_when.
    match goal with |- (if ?c && _ then _ else _) = _ => now destruct c end. }
  assert (H4 : filter isSubnetsDiagnostic (output (checkAuthEncryption props)) = []).
  { rewrite output_checkAuthEncryption.
    destruct (_ && _); [reflexivity|]. now destruct (_ && _). }
  assert (H5 : filter isSubnetsDiagnostic (output (checkVolumeSize props)) = []).
  { unfold checkVolumeSize. rewrite filter_output_when.
    match goal with |- (if ?c && _ then _ else _) = _ => now destruct c end. }
  rewrite H1, H2, H3, H4, H5, !app_nil_r. now split.
Qed.

(** *** The cluster name *)

(** In either revision the diagnostic on the cluster name is drawn exactly
    when the name is resolved, is not alphanumeric, and is longer than 64,
    all three at once; it then quotes the name. *)
Theorem clusterName_diagnostic (isUnresolved : string -> bool) (props : ClusterProps) :
  filter isClusterNameDiagnostic (diagnostics (Cluster_constructor isUnresolved props))
  = (if negb (isUnresolved (clusterName props))
        && negb (test_alphanumeric (clusterName props))
        && (64 <? String.length (clusterName props))%nat
     then [clusterNameMessage (clusterName props)] else [])
  /\ filter isClusterNameDiagnostic
       (diagnostics (Cluster_constructor_part_000 isUnresolved props))
     = (if negb (isUnresolved (clusterName props))
           && negb (test_alphanumeric (clusterName props))
           && (64 <? String.length (clusterName props))%nat
        then [clusterNameMessage (clusterName props)] else []).
Proof.
  destruct (name_diagnostics_Cluster_constructor isUnresolved props) as [-> ->].
  rewrite output_checkClusterName.
  destruct (_ && _ && _); [|now split].
  cbn [filter].
  replace (isClusterNameDiagnostic (clusterNameMessage (clusterName props))) with true
    by reflexivity.
  now split.
Qed.

(** *** Authentication *)

Lemma count_onlyOneAuth_others isUnresolved props :
  count onlyOneAuthMessage (output (checkSubnets props)) = 0
  /\ count onlyOneAuthMessage (output (checkClusterName isUnresolved props)) = 0
  /\ count onlyOneAuthMessage (output (checkAuthEncryption props)) = 0
  /\ count onlyOneAuthMessage (output (checkVolumeSize props)) = 0.
Proof.
  rewrite output_checkAuthEncryption.
  unfold checkSubnets, checkClusterName, checkVolumeSize.
  rewrite !count_output_when.
  repeat split;
    try match goal with |- (if ?c && _ then _ else _) = _ => now destruct c end.
  destruct (_ && _); [reflexivity|]. now destruct (_ && _).
Qed.

(** Cluster.ts draws the diagnostic that only one mechanism may be set
    exactly when certificate authorities are given and SCRAM is on, once;
    part_000 never draws it. *)
Theorem onlyOneAuth_diagnostic (isUnresolved : string -> bool) (props : ClusterProps) :
  count onlyOneAuthMessage (diagnostics (Cluster_constructor isUnresolved props))
  = (if truthy_array (tlsCertificateAuthorityArns props) && truthy_bool (saslScram props)
     then 1 else 0)
  /\ count onlyOneAuthMessage
       (diagnostics (Cluster_constructor_part_000 isUnresolved props)) = 0.
Proof.
  rewrite diagnostics_Cluster_constructor, diagnostics_Cluster_constructor_part_000.
  rewrite !count_app.
  destruct (count_onlyOneAuth_others isUnresolved props) as (H1 & H2 & H3 & H4).
  rewrite H1, H2, H3, H4.
  unfold checkOnlyOneAuth. rewrite count_output_when.
  rewrite String.eqb_refl, andb_true_r.
  split; [|reflexivity].
  destruct (_ && _); reflexivity.
Qed.

(** In either revision the diagnostic on SCRAM under mixed traffic is
    drawn exactly when the mode is TLS_PLAINTEXT and SCRAM is on, and the
    two diagnostics on encryption are never drawn together. *)
Theorem encryption_diagnostics_exclusive
  (isUnresolved : string -> bool) (props : ClusterProps) :
  count scramNeedsTlsOnlyMessage (diagnostics (Cluster_constructor isUnresolved props))
  = (if clientBrokerIs props TLS_PLAINTEXT && truthy_bool (saslScram props) then 1 else 0)
  /\ count scramNeedsTlsOnlyMessage
       (diagnostics (Cluster_constructor_part_000 isUnresolved props))
     = (if clientBrokerIs props TLS_PLAINTEXT && truthy_bool (saslScram props) then 1 else 0)
  /\ count authNeedsTlsMessage (diagnostics (Cluster_constructor isUnresolved props))
     + count scramNeedsTlsOnlyMessage (diagnostics (Cluster_constructor isUnresolved props))
     <= 1
  /\ count authNeedsTlsMessage
       (diagnostics (Cluster_constructor_part_000 isUnresolved props))
     + count scramNeedsTlsOnlyMessage
         (diagnostics (Cluster_constructor_part_000 isUnresolved props))
     <= 1.
Proof.
  destruct (count_auth_messages isUnresolved props authNeedsTlsMessage (or_introl eq_refl))
    as [-> ->].
  destruct (count_auth_messages isUnresolved props scramNeedsTlsOnlyMessage
              (or_intror eq_refl)) as [-> ->].
  rewrite output_checkAuthEncryption.
  unfold clientBrokerIs.
  destruct (encryptionInTransit props ?. clientBroker) as [[]|];
    destruct (truthy_array (tlsCertificateAuthorityArns props));
    destruct (truthy_bool (saslScram props)); cbn; repeat split; lia.
Qed.

(** *** Clean construction *)

(** With at least two subnets, an alphanumeric name, no client
    authentication, and a volume size that is absent or within 1-16384,
    either revision constructs without a diagnostic. *)
Theorem Cluster_valid_no_diagnostic
  (isUnresolved : string -> bool) (props : ClusterProps) :
  2 <= subnetCount props ->
  test_alphanumeric (clusterName props) = true ->
  clientAuthentication props = None ->
  (forall v, propsVolumeSize props = Some v -> (1 <= v <= 16384)%Z) ->
  diagnostics (Cluster_constructor isUnresolved props) = []
  /\ diagnostics (Cluster_constructor_part_000 isUnresolved props) = [].
Proof.
  intros Hsub Hname Hauth Hvol.
  rewrite diagnostics_Cluster_constructor, diagnostics_Cluster_constructor_part_000.
  assert (H1 : output (checkSubnets props) = []).
  { unfold checkSubnets. rewrite output_when_addError. fold (subnetCount props).
    apply Nat.ltb_ge in Hsub. now rewrite Hsub. }
  assert (H2 : output (checkClusterName isUnresolved props) = []).
  { rewrite output_checkClusterName, Hname. cbn. now rewrite andb_false_r. }
  assert (H3 : output (checkOnlyOneAuth props) = []).
  { unfold checkOnlyOneAuth, tlsCertificateAuthorityArns, saslScram.
    now rewrite output_when_addError, Hauth. }
  assert (H4 : output (checkAuthEncryption props) = []).
  { rewrite output_checkAuthEncryption.
    unfold tlsCertificateAuthorityArns, saslScram. rewrite Hauth. cbn.
    now rewrite !andb_false_r. }
  assert (H5 : output (checkVolumeSize props) = []).
  { unfold checkVolumeSize. rewrite output_when_addError.
    destruct (propsVolumeSize props) as [v|]; [|reflexivity].
    specialize (Hvol v eq_refl).
    replace (v <? 1)%Z with false by (symmetry; apply Z.ltb_ge; lia).
    replace (v >? 16384)%Z with false by (rewrite Z.gtb_ltb; symmetry; apply Z.ltb_ge; lia).
    reflexivity. }
  rewrite H1, H2, H3, H4, H5. now split.
Qed.

Lemma Cluster_valid_no_diagnostic_witness :
  diagnostics (Cluster_constructor hasTokenMarker
                 (exampleProps "orders2" None (Some TLS) (Some 500%Z))) = []
  /\ diagnostics (Cluster_constructor_part_000 hasTokenMarker
                    (exampleProps "orders2" None (Some TLS) (Some 500%Z))) = [].
Proof.
  apply (Cluster_valid_no_diagnostic hasTokenMarker
           (exampleProps "orders2" None (Some TLS) (Some 500%Z))).
  - unfold subnetCount. simpl. lia.
  - reflexivity.
  - reflexivity.
  - intros v H. injection H as <-. lia.
Defined.

(** *** The two revisions *)

Lemma filter_not_onlyOne_when c message :
  (message =? onlyOneAuthMessage) = false ->
  filter (fun m => negb (m =? onlyOneAuthMessage)) (output (when c (addError message)))
  = output (when c (addError message)).
Proof.
  intros H. rewrite filter_output_when, output_when_addError, H.
  now destruct c.
Qed.

(** The diagnostics of part_000 are those of cluster.ts, in the same
    order, without the diagnostic that only one mechanism may be set. *)
Theorem diagnostics_part_000_of_cluster_ts
  (isUnresolved : string -> bool) (props : ClusterProps) :
  diagnostics (Cluster_constructor_part_000 isUnresolved props)
  = filter (fun m => negb (m =? onlyOneAuthMessage))
      (diagnostics (Cluster_constructor isUnresolved props)).
Proof.
  rewrite diagnostics_Cluster_constructor, diagnostics_Cluster_constructor_part_000.
  rewrite !filter_app.
  assert (H1 : filter (fun m => negb (m =? onlyOneAuthMessage)) (output (checkSubnets props))
               = output (checkSubnets props)).
  { unfold checkSubnets. now apply filter_not_onlyOne_when. }
  assert (H2 : filter (fun m => negb (m =? onlyOneAuthMessage))
                 (output (checkClusterName isUnresolved props))
               = output (checkClusterName isUnresolved props)).
  { unfold checkClusterName. now apply filter_not_onlyOne_when. }
  assert (H3 : filter (fun m => negb (m =? onlyOneAuthMessage))
                 (output (checkOnlyOneAuth props)) = []).
  { unfold checkOnlyOneAuth. rewrite filter_output_when.
    match goal with |- (if ?c && _ then _ else _) = _ => now destruct c end. }
  assert (H4 : filter (fun m => negb (m =? onlyOneAuthMessage))
                 (output (checkAuthEncryption props))
               = output (checkAuthEncryption props)).
  { rewrite output_checkAuthEncryption.
    destruct (_ && _); [reflexivity|]. now destruct (_ && _). }
  assert (H5 : filter (fun m => negb (m =? onlyOneAuthMessage))
                 (output (checkVolumeSize props))
               = output (checkVolumeSize props)).
  { unfold checkVolumeSize. now apply filter_not_onlyOne_when. }
  now rewrite H1, H2, H3, H4, H5.
Qed.

(** *** The resource *)

Lemma volumeSize_out_of_range_drawn isUnresolved props v :
  propsVolumeSize props = Some v ->
  (v < 1 \/ 16384 < v)%Z ->
  In volumeSizeMessage (diagnostics (Cluster_constructor isUnresolved props))
  /\ In volumeSizeMessage (diagnostics (Cluster_constructor_part_000 isUnresolved props)).
Proof.
  intros Hv Hout.
  assert (H : In volumeSizeMessage (output (checkVolumeSize props))).
  { apply In_volumeSizeMessage_checkVolumeSize. now exists v. }
  rewrite diagnostics_Cluster_constructor, diagnostics_Cluster_constructor_part_000.
  rewrite !in_app_iff. tauto.
Qed.

(** When construction draws no diagnostic on the volume size, the volume
    size written to the resource is the size given, or 1000 when no size
    is given, and it lies within 1-16384. *)
Theorem resource_volumeSize_in_range
  (isUnresolved : string -> bool) (props : ClusterProps) (c : Cluster) (e : list string) :
  Cluster_constructor isUnresolved props [] = Ok (c, e)
  \/ Cluster_constructor_part_000 isUnresolved props [] = Ok (c, e) ->
  ~ In volumeSizeMessage e ->
  cfn_volumeSize (resource c)
  = match propsVolumeSize props with
    | Some v => v
    | None => 1000%Z
    end
  /\ (1 <= cfn_volumeSize (resource c) <= 16384)%Z.
Proof.
  intros Hrun Hno.
  assert (H : resource c = newResource props (newConnections props)
              /\ ~ (exists v, propsVolumeSize props = Some v /\ (v < 1 \/ 16384 < v)%Z)).
  { destruct Hrun as [Hrun|Hrun].
    - apply Cluster_constructor_value in Hrun as (Hres & _ & _ & He).
      split; [exact Hres|]. intros [v [Hv Hout]]. apply Hno. rewrite He. cbn [app].
      now apply (volumeSize_out_of_range_drawn isUnresolved props v).
    - apply Cluster_constructor_part_000_value in Hrun as (Hres & _ & _ & He).
      split; [exact Hres|]. intros [v [Hv Hout]]. apply Hno. rewrite He. cbn [app].
      now apply (volumeSize_out_of_range_drawn isUnresolved props v). }
  destruct H as [-> Hok]. cbn [newResource cfn_volumeSize].
  destruct (propsVolumeSize props) as [v|]; [|split; [reflexivity | lia]].
  assert (Hv : (1 <= v <= 16384)%Z).
  { destruct (Z_lt_dec v 1) as [Hlt|Hge]; [exfalso; apply Hok; exists v; auto|].
    destruct (Z_lt_dec 16384 v) as [Hgt|Hle]; [exfalso; apply Hok; exists v; auto|].
    lia. }
  replace (v =? 0)%Z with false by (symmetry; apply Z.eqb_neq; lia).
  split; [reflexivity | exact Hv].
Qed.

Lemma resource_volumeSize_in_range_witness :
  exists c e,
    Cluster_constructor hasTokenMarker
      (exampleProps "orders2" None (Some TLS) (Some 500%Z)) [] = Ok (c, e)
    /\ cfn_volumeSize (resource c) = 500%Z
    /\ (1 <= cfn_volumeSize (resource c) <= 16384)%Z.
Proof.
  eexists. eexists. split.
  - cbv. reflexivity.
  - apply (resource_volumeSize_in_range hasTokenMarker
             (exampleProps "orders2" None (Some TLS) (Some 500%Z)) _ []).
    + left. reflexivity.
    + intros [].
Defined.

(** In either revision the resource lists exactly the security groups
    that the cluster's connections manage: the groups given in the
    properties, or else the one group the constructor creates. *)
Theorem resource_securityGroups_of_connections
  (isUnresolved : string -> bool) (props : ClusterProps) (errors : list string) :
  (exists c e conns,
      Cluster_constructor isUnresolved props errors = Ok (c, e)
      /\ connections (base c) = Ok conns
      /\ cfn_securityGroups (resource c)
         = map securityGroupId (connections_securityGroups conns)
      /\ connections_securityGroups conns
         = match securityGroups (brokerNodeGroupProps props) with
           | Some groups => groups
           | None => [SecurityGroup_new "SecurityGroup" "MSK security group"]
           end)
  /\ (exists c e conns,
         Cluster_constructor_part_000 isUnresolved props errors = Ok (c, e)
         /\ connections (base c) = Ok conns
         /\ cfn_securityGroups (resource c)
            = map securityGroupId (connections_securityGroups conns)
         /\ connections_securityGroups conns
            = match securityGroups (brokerNodeGroupProps props) with
              | Some groups => groups
              | None => [SecurityGroup_new "SecurityGroup" "MSK security group"]
              end).
Proof.
  split.
  - destruct (Cluster_constructor_run isUnresolved props errors) as [c [Hrun Hconn]].
    exists c. eexists. exists (newConnections props).
    split; [exact Hrun|]. split; [exact Hconn|].
    apply Cluster_constructor_value in Hrun as (-> & _). split; reflexivity.
  - destruct (Cluster_constructor_part_000_run isUnresolved props errors)
      as [c [Hrun Hconn]].
    exists c. eexists. exists (newConnections props).
    split; [exact Hrun|]. split; [exact Hconn|].
    apply Cluster_constructor_part_000_value in Hrun as (-> & _). split; reflexivity.
Qed.

(** *** Users *)

(** On a cluster constructed by part_000, [addUser] creates one secret per
    user name, named [AmazonMSK_] and the user name, in the order given,
    and associates their ARNs, without a diagnostic, exactly when SCRAM is
    on and the properties give no key; in every other case, a key given
    in the properties included, it creates nothing and adds one
    diagnostic. *)
Theorem addUser_after_construction
  (isUnresolved : string -> bool) (addressOf : list string -> string)
  (props : ClusterProps) (usernames : list string) (errors : list string) :
  exists c e,
    Cluster_constructor_part_000 isUnresolved props errors = Ok (c, e)
    /\ if truthy_bool (saslScram props)
          && match saslKey props with None => true | Some _ => false end
       then exists secrets batch,
           MskUsers.addUser addressOf c usernames e = Ok ((secrets, Some batch), e)
           /\ map MskUsers.secretName secrets
              = map (fun username => ("AmazonMSK_" ++ username)%string) usernames
           /\ MskUsers.batch_SecretArnList batch = map MskUsers.secretArn secrets
       else MskUsers.addUser addressOf c usernames e
            = Ok (([], None),
                  e ++ ["Cannot create users if an authentication KMS key has not been created/provided."]).
Proof.
  destruct (Cluster_constructor_part_000_run isUnresolved props errors) as [c [Hrun _]].
  exists c. eexists. split; [exact Hrun|].
  apply Cluster_constructor_part_000_value in Hrun as (_ & _ & Hkey & _).
  unfold MskUsers.addUser. rewrite Hkey. unfold newSaslKey.
  destruct (_ && _).
  - eexists. eexists. split; [reflexivity|]. split; [|reflexivity].
    rewrite map_map. reflexivity.
  - reflexivity.
Qed.

(** *** Imported clusters *)

Lemma split_free d s : free_of d s = true -> split d s = [s].
Proof.
  unfold free_of. induction s as [|c s IH]; simpl; intros H.
  - reflexivity.
  - apply andb_true_iff in H as [Hc Hs]. apply negb_true_iff in Hc.
    rewrite Hc, (IH Hs). reflexivity.
Qed.

Lemma split_app d a b :
  free_of d a = true -> split d (a ++ String d b) = a :: split d b.
Proof.
  unfold free_of. induction a as [|c a IH]; simpl; intros H.
  - now rewrite Ascii.eqb_refl.
  - apply andb_true_iff in H as [Hc Ha]. apply negb_true_iff in Hc.
    rewrite Hc, (IH Ha). reflexivity.
Qed.

(** The name of a cluster imported by ARN is the text between the first
    and the second slash of the ARN, and the text after the first slash
    when there is no second one. *)
Theorem fromClusterArn_name (head name rest : string) :
  free_of "/" head = true ->
  free_of "/" name = true ->
  this_clusterName (fromClusterArn (head ++ "/" ++ name ++ "/" ++ rest)%string)
  = Some (Lit name)
  /\ this_clusterName (fromClusterArn (head ++ "/" ++ name)%string) = Some (Lit name).
Proof.
  intros Hhead Hname. unfold fromClusterArn. cbn [this_clusterName].
  change ("/" ++ name ++ "/" ++ rest)%string with (String "/" (name ++ String "/" rest)).
  change ("/" ++ name)%string with (String "/" name).
  rewrite !(split_app "/" head) by assumption.
  rewrite (split_app "/" name) by assumption.
  rewrite (split_free "/" name) by assumption.
  split; reflexivity.
Qed.

Lemma fromClusterArn_name_witness :
  this_clusterName
    (fromClusterArn ("arn:aws:kafka:us-east-1:111111111111:cluster" ++ "/" ++ "orders"
                     ++ "/" ++ "abcd-1234")%string)
  = Some (Lit "orders")
  /\ this_clusterName
       (fromClusterArn
          ("arn:aws:kafka:us-east-1:111111111111:cluster" ++ "/" ++ "orders")%string)
     = Some (Lit "orders").
Proof.
  apply (fromClusterArn_name "arn:aws:kafka:us-east-1:111111111111:cluster"
           "orders" "abcd-1234"); reflexivity.
Defined.

(** An ARN without a slash leaves the imported cluster without a name;
    the import itself succeeds all the same. *)
Theorem fromClusterArn_no_slash (clusterArn : string) :
  free_of "/" clusterArn = true ->
  this_clusterName (fromClusterArn clusterArn) = None
  /\ this_clusterArn (fromClusterArn clusterArn) = Some (Lit clusterArn).
Proof.
  intros H. unfold fromClusterArn. cbn [this_clusterName this_clusterArn].
  rewrite (split_free "/" clusterArn H). split; reflexivity.
Qed.

Lemma fromClusterArn_no_slash_witness :
  this_clusterName (fromClusterArn "orders") = None
  /\ this_clusterArn (fromClusterArn "orders") = Some (Lit "orders").
Proof. apply (fromClusterArn_no_slash "orders"). reflexivity. Defined.

(* ================================================================= *)
(** ** The earlier Cluster construct *)

(** The earlier constructor succeeds exactly when the properties give a
    KMS key under [storageInfo.ebsStorageInfo.encryptionKmsKey], whose id
    it writes to the resource; when the storage information, the EBS
    information or the key is absent, it throws. *)
Theorem Cluster0_constructor_needs_kms_key (props : Msk0.ClusterProps) :
  match givenKmsKey props with
  | Some keyId =>
      exists c, Msk0.Cluster_constructor props = Ok c
                /\ Msk0.cfn_dataVolumeKmsKeyId (Msk0.resource c) = keyId
  | None => exists message, Msk0.Cluster_constructor props = Throw message
  end.
Proof.
  unfold givenKmsKey, Msk0.Cluster_constructor, Msk0.dataVolumeKmsKeyId.
  destruct (Msk0.storageInfo (Msk0.brokerNodeProps props)) as [[[[size key]|]]|]; cbn.
  - destruct key as [keyId|]; cbn.
    + eexists. split; reflexivity.
    + eexists. reflexivity.
  - eexists. reflexivity.
  - eexists. reflexivity.
Qed.

(** When the earlier constructor succeeds and the number of broker nodes
    is not given, or is 0, the resource gets one broker node per client
    subnet. *)
Theorem Cluster0_one_broker_per_subnet (props : Msk0.ClusterProps) (c : Msk0.Cluster) :
  Msk0.Cluster_constructor props = Ok c ->
  Msk0.numberOfBrokerNodes props = None \/ Msk0.numberOfBrokerNodes props = Some 0%Z ->
  Msk0.cfn_numberOfBrokerNodes (Msk0.resource c)
  = Z.of_nat (length (Msk0.cfn_clientSubnets (Msk0.resource c))).
Proof.
  unfold Msk0.Cluster_constructor. intros Hrun Hn.
  destruct (Msk0.dataVolumeKmsKeyId props) as [keyId|]; [|discriminate].
  injection Hrun as <-. cbn [Msk0.resource Msk0.cfn_numberOfBrokerNodes Msk0.cfn_clientSubnets].
  destruct Hn as [-> | ->]; reflexivity.
Qed.

Lemma Cluster0_one_broker_per_subnet_witness :
  exists c,
    Msk0.Cluster_constructor
      (exampleProps0
         (Some {| Msk0.ebsStorageInfo :=
                    Some {| Msk0.volumeSize := None;
                            Msk0.encryptionKmsKey := Some "key-1" |} |})
         None) = Ok c
    /\ Msk0.cfn_numberOfBrokerNodes (Msk0.resource c) = 2%Z.
Proof.
  eexists. split.
  - cbv. reflexivity.
  - apply (Cluster0_one_broker_per_subnet
             (exampleProps0
                (Some {| Msk0.ebsStorageInfo :=
                           Some {| Msk0.volumeSize := None;
                                   Msk0.encryptionKmsKey := Some "key-1" |} |})
                None)).
    + reflexivity.
    + left. reflexivity.
Defined.
